(** * WireViz [Harness]: a shallow embedding of [wireviz/Harness.py]

    The development follows the Python class [Harness]:
    - Python values that the harness handles (pin and wire tokens) and the
      list and dict primitives the methods use ([in], [index], [count],
      item assignment);
    - the exceptions the methods can raise, and a state-and-exception monad
      in which a raised exception keeps the mutations made before it;
    - [Harness.connect], [Harness.create_graph] and [Harness.bom];
    - the properties of these methods.

    Code of the package that lives outside [Harness.py] ([Cable.connect],
    [Connector.activate_pin], [get_color_hex], [generate_bom]) is either a
    parameter of a section or modelled from the specification, and says so. *)

From Stdlib Require Import List String Ascii ZArith Bool Arith Lia.
From Stdlib Require Import DecimalString.
Import ListNotations.
Local Open Scope string_scope.
Local Open Scope list_scope.

(* ===================================================================== *)
(** * Python values and containers *)
(* ===================================================================== *)

(** A pin or wire token: the annotation is [(int, str)], and [None] is what a
    caller passes for an absent endpoint. *)
Inductive pyval : Type :=
| PyNone
| PyInt (z : Z)
| PyStr (s : string).

(** Python's [==], as a class: the list and dict primitives below
    compare with it. *)
Class PyEq (A : Type) : Type := {
  py_eqb : A -> A -> bool;
  py_eqb_eq : forall x y, py_eqb x y = true <-> x = y
}.

Definition pyval_eqb (a b : pyval) : bool :=
  match a, b with
  | PyNone, PyNone => true
  | PyInt x, PyInt y => Z.eqb x y
  | PyStr s, PyStr t => String.eqb s t
  | _, _ => false
  end.

Lemma pyval_eqb_eq (a b : pyval) : pyval_eqb a b = true <-> a = b.
Proof.
  destruct a, b; simpl; split; intros E; try discriminate; try reflexivity.
  - apply Z.eqb_eq in E. now subst.
  - injection E as ->. apply Z.eqb_refl.
  - apply String.eqb_eq in E. now subst.
  - injection E as ->. apply String.eqb_refl.
Qed.

#[export] Instance PyEq_pyval : PyEq pyval :=
  {| py_eqb := pyval_eqb; py_eqb_eq := pyval_eqb_eq |}.

#[export] Instance PyEq_string : PyEq string :=
  {| py_eqb := String.eqb; py_eqb_eq := String.eqb_eq |}.

Definition option_eqb {A} `{PyEq A} (a b : option A) : bool :=
  match a, b with
  | None, None => true
  | Some x, Some y => py_eqb x y
  | _, _ => false
  end.

Lemma option_eqb_eq {A} `{PyEq A} (a b : option A) :
  option_eqb a b = true <-> a = b.
Proof.
  destruct a, b; simpl; split; intros E; try discriminate; try reflexivity.
  - apply py_eqb_eq in E. now subst.
  - injection E as ->. now apply py_eqb_eq.
Qed.

#[export] Instance PyEq_option {A} `{PyEq A} : PyEq (option A) :=
  {| py_eqb := option_eqb; py_eqb_eq := option_eqb_eq |}.

(** [str(v)], which is also what an f-string field [{v}] prints. *)
Definition py_str (v : pyval) : string :=
  match v with
  | PyNone => "None"
  | PyInt z => NilZero.string_of_int (Z.to_int z)
  | PyStr s => s
  end.

(** A name that may be [None], as a value. *)
Definition name_val (n : option string) : pyval :=
  match n with
  | None => PyNone
  | Some s => PyStr s
  end.

Section PyList.
Context {A : Type} `{PyEq A}.

(** [x in l] *)
Fixpoint py_in (x : A) (l : list A) : bool :=
  match l with
  | [] => false
  | y :: l' => py_eqb y x || py_in x l'
  end.

(** [l.index(x)]: the position of the first element equal to [x];
    [None] is Python's [ValueError]. *)
Fixpoint py_index (x : A) (l : list A) : option nat :=
  match l with
  | [] => None
  | y :: l' =>
      if py_eqb y x then Some 0
      else match py_index x l' with
           | Some i => Some (S i)
           | None => None
           end
  end.

(** [l.count(x)] *)
Fixpoint py_count (x : A) (l : list A) : nat :=
  match l with
  | [] => 0
  | y :: l' => (if py_eqb y x then 1 else 0) + py_count x l'
  end.
End PyList.

(** A Python [dict]: keys in insertion order, each key once. *)
Definition dict (K V : Type) : Type := list (K * V).

Section PyDict.
Context {K V : Type} `{PyEq K}.

(** [d[k]]; [None] is Python's [KeyError]. *)
Fixpoint dict_get (k : K) (d : dict K V) : option V :=
  match d with
  | [] => None
  | (k', v) :: d' => if py_eqb k' k then Some v else dict_get k d'
  end.

(** [k in d] *)
Definition dict_mem (k : K) (d : dict K V) : bool :=
  match dict_get k d with
  | Some _ => true
  | None => false
  end.

(** [d[k] = v]: an existing key keeps its place, a new one goes last. *)
Fixpoint dict_set (k : K) (v : V) (d : dict K V) : dict K V :=
  match d with
  | [] => [(k, v)]
  | (k', v') :: d' =>
      if py_eqb k' k then (k', v) :: d' else (k', v') :: dict_set k v d'
  end.
End PyDict.

(** [itertools.zip_longest] of two lists, with [None] as fill value. *)
Fixpoint zip_longest {A B : Type} (l1 : list A) (l2 : list B)
  : list (option A * option B) :=
  match l1, l2 with
  | [], [] => []
  | x :: l1', [] => (Some x, None) :: zip_longest l1' []
  | [], y :: l2' => (None, Some y) :: map (fun b => (None, Some b)) l2'
  | x :: l1', y :: l2' => (Some x, Some y) :: zip_longest l1' l2'
  end.

(** A Python [str] is held as its UTF-8 bytes. [len(s)] counts the
    characters: the bytes that do not continue a character (a continuation
    byte is [10xxxxxx]). *)
Definition is_continuation_byte (a : ascii) : bool :=
  match a with
  | Ascii _ _ _ _ _ _ b6 b7 => b7 && negb b6
  end.

Fixpoint py_len (s : string) : nat :=
  match s with
  | EmptyString => 0
  | String a s' => (if is_continuation_byte a then 0 else 1) + py_len s'
  end.

(** [c in s] for a one-character [c]. *)
Fixpoint str_contains (c : ascii) (s : string) : bool :=
  match s with
  | EmptyString => false
  | String a s' => Ascii.eqb a c || str_contains c s'
  end.

(** [sep.join(l)] *)
Fixpoint str_join (sep : string) (l : list string) : string :=
  match l with
  | [] => EmptyString
  | [s] => s
  | s :: l' => (s ++ sep ++ str_join sep l')%string
  end.

(* ===================================================================== *)
(** * Exceptions *)
(* ===================================================================== *)

(** The messages of the [raise Exception(...)] statements of [Harness.py],
    with the identifiers the f-strings print. *)
Inductive exn_msg : Type :=
| AmbiguousPin (name : string) (pin : pyval)
    (** [{name}:{pin} is defined both in pinlabels and pins, for different pins.] *)
| DuplicatePin (name : string) (pin : pyval)
    (** [{name}:{pin} is defined more than once.] *)
| PinNotFound (name : string) (pin : pyval)
    (** [{name}:{pin} not found.] *)
| AmbiguousWire (via_name : string) (via_wire : pyval)
    (** [{via_name}:{via_wire} is defined both in colors and wirelabels, for different wires.] *)
| DuplicateWire (via_name : string) (via_wire : pyval)
    (** [{via_name}:{via_wire} is used for more than one wire.] *)
| NoSideForLoops
    (** [No side for loops] *).

Inductive pyexn : Type :=
| PyException (msg : exn_msg)      (** [raise Exception(msg)] *)
| KeyError (key : pyval)           (** [d[key]] with no such key *)
| IndexError                       (** [l[i]] out of range *)
| ValueError                       (** [l.index(x)] with no such element *)
| TypeError                        (** [sep.join(l)] with a non-string in [l] *)
| AttributeError (attr : string)   (** [self.attr] never assigned *)
| UnboundLocalError (var : string) (** a local read before its assignment *).

Inductive result (A : Type) : Type :=
| OK (a : A)
| Raise (e : pyexn).
Arguments OK {A} a.
Arguments Raise {A} e.

Definition rbind {A B} (c : result A) (k : A -> result B) : result B :=
  match c with
  | OK a => k a
  | Raise e => Raise e
  end.

Notation "'let!' x ':=' c 'in' k" := (rbind c (fun x => k))
  (at level 10, x pattern, c at level 100, k at level 200).

(** The validation failures of [connect]: the five [Exception]s it raises
    itself. *)
Definition is_validation_error (e : pyexn) : bool :=
  match e with
  | PyException (AmbiguousPin _ _)
  | PyException (DuplicatePin _ _)
  | PyException (PinNotFound _ _)
  | PyException (AmbiguousWire _ _)
  | PyException (DuplicateWire _ _) => true
  | _ => false
  end.

(* ===================================================================== *)
(** * Data model *)
(* ===================================================================== *)

(** The fields of [wireviz.DataClasses.Connector] that [Harness.py] reads
    or writes. *)
Record Connector : Type := mkConnector {
  connector_name : string;
  pins : list pyval;
  pinlabels : list pyval;
  pincolors : list string;
  connector_style : option string;
  connector_show_name : bool;
  hide_disconnected_pins : bool;
  loops : list (pyval * pyval);
  visible_pins : dict pyval bool;
  ports_left : bool;
  ports_right : bool
}.

(** A connection record of a cable, with the attribute names
    [create_graph] reads. *)
Record Connection : Type := mkConnection {
  from_name : option string;
  from_port : pyval;
  via_port : pyval;
  to_name : option string;
  to_port : pyval
}.

(** [cable.shield] is a bool or a colour string. *)
Inductive shield_t : Type :=
| ShieldBool (b : bool)
| ShieldStr (s : string).

(** The fields of [wireviz.DataClasses.Cable] that [Harness.py] reads or
    writes. A colour is a string (line 201 takes its [len]); a wire label
    is a token, [int] or [str], as a pin label is. *)
Record Cable : Type := mkCable {
  cable_name : string;
  colors : list string;
  wirelabels : list pyval;
  shield : shield_t;
  connections : list Connection
}.

(** The objects [create_graph] reads from [self.mates_pin]. *)
Record MatePin : Type := mkMatePin {
  mate_from_name : string;
  mate_from_port : pyval;
  mate_to_name : string;
  mate_to_port : pyval;
  mate_shape : string
}.

Record MateComponent : Type := mkMateComponent {
  matec_from_name : string;
  matec_to_name : string;
  matec_shape : string
}.

(** The keys [connect] uses in [self.mates]: a 4-tuple or a 2-tuple. *)
Inductive mate_key : Type :=
| MatePinKey (from_name : option string) (from_pin : pyval)
             (to_name : option string) (to_pin : pyval)
| MateComponentKey (from_name to_name : option string).

Definition mate_key_eqb (a b : mate_key) : bool :=
  match a, b with
  | MatePinKey fn fp tn tp, MatePinKey fn' fp' tn' tp' =>
      py_eqb fn fn' && py_eqb fp fp' && py_eqb tn tn' && py_eqb tp tp'
  | MateComponentKey fn tn, MateComponentKey fn' tn' =>
      py_eqb fn fn' && py_eqb tn tn'
  | _, _ => false
  end.

Lemma mate_key_eqb_eq (a b : mate_key) : mate_key_eqb a b = true <-> a = b.
Proof.
  destruct a, b; simpl; split; intros E; try discriminate.
  - repeat (apply andb_prop in E; destruct E as [E ?]).
    repeat match goal with
           | X : option_eqb _ _ = true |- _ => apply option_eqb_eq in X
           | X : pyval_eqb _ _ = true |- _ => apply pyval_eqb_eq in X
           end.
    now subst.
  - injection E as -> -> -> ->.
    rewrite !(proj2 (option_eqb_eq _ _) eq_refl),
            !(proj2 (pyval_eqb_eq _ _) eq_refl). reflexivity.
  - apply andb_prop in E. destruct E as [E1 E2].
    apply option_eqb_eq in E1, E2. now subst.
  - injection E as -> ->.
    rewrite !(proj2 (option_eqb_eq _ _) eq_refl). reflexivity.
Qed.

#[export] Instance PyEq_mate_key : PyEq mate_key :=
  {| py_eqb := mate_key_eqb; py_eqb_eq := mate_key_eqb_eq |}.

(** A row of the bill of materials, and a free-form additional item: a
    dict of fields. *)
Definition bom_entry : Type := dict string pyval.

(** The attributes of a [Harness] object. [__init__] assigns all of them
    but [mates], which [connect] nevertheless uses: [None] is the object
    without that attribute. *)
Record Harness : Type := mkHarness {
  color_mode : string;
  mini_bom_mode : bool;
  connectors : dict string Connector;
  cables : dict string Cable;
  mates_pin : list MatePin;
  mates_component : list MateComponent;
  _bom : list bom_entry;
  additional_bom_items : list bom_entry;
  mates : option (dict mate_key string)
}.

(** [Harness.__init__] *)
Definition Harness_init : Harness :=
  {| color_mode := "SHORT";
     mini_bom_mode := true;
     connectors := [];
     cables := [];
     mates_pin := [];
     mates_component := [];
     _bom := [];
     additional_bom_items := [];
     mates := None |}.

Definition set_connectors (cs : dict string Connector) (h : Harness) : Harness :=
  mkHarness (color_mode h) (mini_bom_mode h) cs (cables h) (mates_pin h)
            (mates_component h) (_bom h) (additional_bom_items h) (mates h).

Definition set_cables (cs : dict string Cable) (h : Harness) : Harness :=
  mkHarness (color_mode h) (mini_bom_mode h) (connectors h) cs (mates_pin h)
            (mates_component h) (_bom h) (additional_bom_items h) (mates h).

Definition set_mates (m : option (dict mate_key string)) (h : Harness) : Harness :=
  mkHarness (color_mode h) (mini_bom_mode h) (connectors h) (cables h)
            (mates_pin h) (mates_component h) (_bom h)
            (additional_bom_items h) m.

Definition set_bom (b : list bom_entry) (h : Harness) : Harness :=
  mkHarness (color_mode h) (mini_bom_mode h) (connectors h) (cables h)
            (mates_pin h) (mates_component h) b
            (additional_bom_items h) (mates h).

Definition set_additional_bom_items (b : list bom_entry) (h : Harness) : Harness :=
  mkHarness (color_mode h) (mini_bom_mode h) (connectors h) (cables h)
            (mates_pin h) (mates_component h) (_bom h) b (mates h).

(** Modelled from the spec: [Connector.activate_pin] is defined in
    [wireviz/DataClasses.py]; the spec gives it as
    [visible_pins[pin] = true]. *)
Definition activate_pin (pin : pyval) (c : Connector) : Connector :=
  mkConnector (connector_name c) (pins c) (pinlabels c) (pincolors c)
              (connector_style c)
              (connector_show_name c) (hide_disconnected_pins c) (loops c)
              (dict_set pin true (visible_pins c))
              (ports_left c) (ports_right c).

Definition set_ports_left (b : bool) (c : Connector) : Connector :=
  mkConnector (connector_name c) (pins c) (pinlabels c) (pincolors c)
              (connector_style c)
              (connector_show_name c) (hide_disconnected_pins c) (loops c)
              (visible_pins c) b (ports_right c).

Definition set_ports_right (b : bool) (c : Connector) : Connector :=
  mkConnector (connector_name c) (pins c) (pinlabels c) (pincolors c)
              (connector_style c)
              (connector_show_name c) (hide_disconnected_pins c) (loops c)
              (visible_pins c) (ports_left c) b.

(** Modelled from the spec: [Cable.connect] is defined in
    [wireviz/DataClasses.py]; the spec gives it as appending the tuple
    (from_name, from_port, via_wire_index, to_name, to_port) to
    [connections]. *)
Definition Cable_connect (fn : option string) (fp : pyval) (vw : pyval)
    (tn : option string) (tp : pyval) (c : Cable) : Cable :=
  mkCable (cable_name c) (colors c) (wirelabels c) (shield c)
          (connections c ++ [mkConnection fn fp vw tn tp]).

(* ===================================================================== *)
(** * Methods run in a state: mutation survives an exception *)
(* ===================================================================== *)

(** A method is run on the object's state and leaves a state, whether it
    returns or raises. *)
Definition M (A : Type) : Type := Harness -> Harness * result A.

Definition ret {A} (a : A) : M A := fun h => (h, OK a).
Definition raise {A} (e : pyexn) : M A := fun h => (h, Raise e).
Definition get : M Harness := fun h => (h, OK h).
Definition modify (f : Harness -> Harness) : M unit := fun h => (f h, OK tt).
Definition lift {A} (r : result A) : M A := fun h => (h, r).

Definition bind {A B} (c : M A) (k : A -> M B) : M B :=
  fun h =>
    match c h with
    | (h', OK a) => k a h'
    | (h', Raise e) => (h', Raise e)
    end.

Notation "x <- c ;; k" := (bind c (fun x => k))
  (at level 61, c at next level, right associativity).
Notation "' pat <- c ;; k" := (bind c (fun x => match x with pat => k end))
  (at level 61, pat pattern, c at next level, right associativity).
Notation "c ;; k" := (bind c (fun _ => k))
  (at level 61, right associativity).

(** [if b: c] *)
Definition when (b : bool) (c : M unit) : M unit := if b then c else ret tt.

(** [for x in l: body(x)] *)
Fixpoint for_each {A} (l : list A) (body : A -> M unit) : M unit :=
  match l with
  | [] => ret tt
  | x :: l' => body x ;; for_each l' body
  end.

(** [self.connectors[name]], read in the state [h]. *)
Definition find_connector (h : Harness) (name : option string)
  : result Connector :=
  match name with
  | Some n =>
      match dict_get n (connectors h) with
      | Some c => OK c
      | None => Raise (KeyError (PyStr n))
      end
  | None => Raise (KeyError PyNone)
  end.

Definition get_connector (name : option string) : M Connector :=
  h <- get ;;
  lift (find_connector h name).

(** [name in self.connectors] *)
Definition has_connector (name : option string) (h : Harness) : bool :=
  match name with
  | Some n => dict_mem n (connectors h)
  | None => false
  end.

(** A method call or attribute assignment on the object
    [self.connectors[name]]. *)
Definition update_connector (name : option string)
    (f : Connector -> Connector) : M unit :=
  c <- get_connector name ;;
  match name with
  | Some n => modify (fun h => set_connectors (dict_set n (f c) (connectors h)) h)
  | None => ret tt
  end.

(** [self.cables[name]] *)
Definition get_cable (name : string) : M Cable :=
  h <- get ;;
  match dict_get name (cables h) with
  | Some c => ret c
  | None => raise (KeyError (PyStr name))
  end.

(** [self.mates] *)
Definition get_mates : M (dict mate_key string) :=
  h <- get ;;
  match mates h with
  | Some m => ret m
  | None => raise (AttributeError "mates")
  end.

#[export] Instance PyEq_nat : PyEq nat :=
  {| py_eqb := Nat.eqb; py_eqb_eq := Nat.eqb_eq |}.

(** [for x in l: s = body(x, s)], where the body may raise. *)
Fixpoint for_result {A S : Type} (l : list A) (body : A -> S -> result S)
    (s : S) : result S :=
  match l with
  | [] => OK s
  | x :: l' => let! s' := body x s in for_result l' body s'
  end.

(* ===================================================================== *)
(** * [Harness.connect] *)
(* ===================================================================== *)

Definition arrows : list string := ["<--"; "<->"; "-->"; "<=="; "<=>"; "==>"].

(** [add_connector] and [add_cable], given the object the constructor
    built. *)
Definition add_connector (name : string) (c : Connector) : M unit :=
  modify (fun h => set_connectors (dict_set name c (connectors h)) h).

Definition add_cable (name : string) (c : Cable) : M unit :=
  modify (fun h => set_cables (dict_set name c (cables h)) h).

Definition add_bom_item (item : bom_entry) : M unit :=
  modify (fun h => set_additional_bom_items (additional_bom_items h ++ [item]) h).

(** Lines 54-71, the body of the loop over the two endpoints. It reads the
    harness and works on the locals [from_pin] and [to_pin]; [pin] is the
    loop variable, taken from the list that [zip] built before the loop. *)
Definition check_endpoint (h : Harness) (from_name to_name : option string)
    (name : option string) (pin : pyval) (locals : pyval * pyval)
  : result (pyval * pyval) :=
  let '(from_pin, to_pin) := locals in
  match name with
  | Some n =>
      match dict_get n (connectors h) with
      | Some connector =>
          (* lines 57-59 *)
          let! _ :=
            (if py_in pin (pins connector) && py_in pin (pinlabels connector)
             then
               if negb (py_eqb (py_index pin (pins connector))
                               (py_index pin (pinlabels connector)))
               then Raise (PyException (AmbiguousPin n pin))
               else OK tt
             else OK tt) in
          (* lines 61-69 *)
          let! (pin, from_pin, to_pin) :=
            (if py_in pin (pinlabels connector) then
               if Nat.ltb 1 (py_count pin (pinlabels connector))
               then Raise (PyException (DuplicatePin n pin))
               else
                 match py_index pin (pinlabels connector) with
                 | Some index =>
                     match nth_error (pins connector) index with
                     | Some pin' =>
                         OK (pin',
                             if py_eqb name from_name then pin' else from_pin,
                             if py_eqb name to_name then pin' else to_pin)
                     | None => Raise IndexError
                     end
                 | None => Raise ValueError
                 end
             else OK (pin, from_pin, to_pin)) in
          (* lines 70-71 *)
          if negb (py_in pin (pins connector))
          then Raise (PyException (PinNotFound n pin))
          else OK (from_pin, to_pin)
      | None => OK locals
      end
  | None => OK locals
  end.

(** Lines 53-71: the loop, which yields the resolved [from_pin] and
    [to_pin]. *)
Definition check_endpoints (h : Harness) (from_name : option string)
    (from_pin : pyval) (to_name : option string) (to_pin : pyval)
  : result (pyval * pyval) :=
  for_result (combine [from_name; to_name] [from_pin; to_pin])
             (fun '(name, pin) => check_endpoint h from_name to_name name pin)
             (from_pin, to_pin).

(** Lines 81-94: the wire token against the colours and the wire labels of
    the cable. A token that is in neither list is left as it is. *)
Definition resolve_wire (via_name : string) (cable : Cable) (via_wire : pyval)
  : result pyval :=
  let cs := map PyStr (colors cable) in
  let ls := wirelabels cable in
  (* lines 83-85 *)
  let! _ :=
    (if py_in via_wire cs && py_in via_wire ls then
       if negb (py_eqb (py_index via_wire cs) (py_index via_wire ls))
       then Raise (PyException (AmbiguousWire via_name via_wire))
       else OK tt
     else OK tt) in
  (* lines 87-94 *)
  if py_in via_wire cs then
    if Nat.ltb 1 (py_count via_wire cs)
    then Raise (PyException (DuplicateWire via_name via_wire))
    else
      match py_index via_wire cs with
      | Some i => OK (PyInt (Z.of_nat i + 1))
      | None => Raise ValueError
      end
  else if py_in via_wire ls then
    if Nat.ltb 1 (py_count via_wire ls)
    then Raise (PyException (DuplicateWire via_name via_wire))
    else
      match py_index via_wire ls with
      | Some i => OK (PyInt (Z.of_nat i + 1))
      | None => Raise ValueError
      end
  else OK via_wire.

(** [self.mates[key] = via_name] *)
Definition record_mate (key : mate_key) (via_name : string) : M unit :=
  m <- get_mates ;;
  modify (set_mates (Some (dict_set key via_name m))).

(** Lines 74-94: the branch on [via_name], which yields the local
    [via_wire]. [print(self.mates)] reads the attribute; what it writes to
    the standard output is not part of the state. *)
Definition check_via (from_name : option string) (from_pin : pyval)
    (via_name : string) (via_wire : pyval)
    (to_name : option string) (to_pin : pyval) : M pyval :=
  h <- get ;;
  if py_in via_name arrows then
    (if str_contains "-" via_name then
       record_mate (MatePinKey from_name from_pin to_name to_pin) via_name
     else if str_contains "=" via_name then
       record_mate (MateComponentKey from_name to_name) via_name
     else ret tt) ;;
    _ <- get_mates ;;
    ret via_wire
  else if dict_mem via_name (cables h) then
    cable <- get_cable via_name ;;
    lift (resolve_wire via_name cable via_wire)
  else ret via_wire.

(** Lines 97-98 and 99-100:
    [if name in self.connectors: self.connectors[name].activate_pin(pin)]. *)
Definition activate_endpoint (name : option string) (pin : pyval) : M unit :=
  h <- get ;;
  when (has_connector name h) (update_connector name (activate_pin pin)).

(** Lines 96-100: the connection is put on the cable [self.cables[via_name]],
    whatever branch was taken before, and the two pins are activated. *)
Definition record_connection (from_name : option string) (from_pin : pyval)
    (via_name : string) (via_wire : pyval)
    (to_name : option string) (to_pin : pyval) : M unit :=
  cable <- get_cable via_name ;;
  modify (fun h =>
            set_cables
              (dict_set via_name
                 (Cable_connect from_name from_pin via_wire to_name to_pin cable)
                 (cables h)) h) ;;
  activate_endpoint from_name from_pin ;;
  activate_endpoint to_name to_pin.

(** [Harness.connect], lines 51-100. *)
Definition connect (from_name : option string) (from_pin : pyval)
    (via_name : string) (via_wire : pyval)
    (to_name : option string) (to_pin : pyval) : M unit :=
  h <- get ;;
  '(from_pin, to_pin) <-
    lift (check_endpoints h from_name from_pin to_name to_pin) ;;
  via_wire <- check_via from_name from_pin via_name via_wire to_name to_pin ;;
  record_connection from_name from_pin via_name via_wire to_name to_pin.

(* ===================================================================== *)
(** * [Harness.create_graph] *)
(* ===================================================================== *)

(** [l[i]] for a Python [int] index: a negative index counts from the end;
    [None] is [IndexError]. *)
Definition py_nth {A : Type} (l : list A) (i : Z) : option A :=
  let len := Z.of_nat (List.length l) in
  if (0 <=? i)%Z then nth_error l (Z.to_nat i)
  else if (- len <=? i)%Z then nth_error l (Z.to_nat (len + i))
  else None.

(** The truth value of a token, as [if pinlabel:] takes it. *)
Definition py_truthy (v : pyval) : bool :=
  match v with
  | PyNone => false
  | PyInt z => negb (Z.eqb z 0)
  | PyStr s => negb (String.eqb s EmptyString)
  end.

(** [v is None] *)
Definition is_none (v : pyval) : bool :=
  match v with
  | PyNone => true
  | _ => false
  end.

(** [itertools.zip_longest] of three lists. *)
Definition zip_longest3 {A B C : Type} (l1 : list A) (l2 : list B)
    (l3 : list C) : list (option A * option B * option C) :=
  map (fun '(ab, c) =>
         match ab with
         | Some (a, b) => (a, b, c)
         | None => (None, None, c)
         end)
      (zip_longest (zip_longest l1 l2) l3).

(** [enumerate(l, start)] *)
Fixpoint enumerate {A : Type} (start : nat) (l : list A) : list (nat * A) :=
  match l with
  | [] => []
  | x :: l' => (start, x) :: enumerate (S start) l'
  end.

(** [connector.style != 'simple'] *)
Definition style_not_simple (c : Connector) : bool :=
  negb (py_eqb (connector_style c) (Some "simple")).

(** ** The graph that is built

    The calls on [dot] are kept in their order. A node's label is an HTML
    text put together by helpers of [wv_gv_html] and [wv_bom]; of it the
    model keeps the rows that [create_graph] computes itself: the pin rows
    of a connector with their ports, the colour bars of the wires of a
    cable, the shield row, and the texts substituted for the
    [<!-- w_in -->] and [<!-- w_out -->] placeholders. *)

Record pin_row : Type := mkPinRow {
  row_pin : option pyval;
  row_port_left : option string;    (** [port="p{pin}l"], if [ports_left] *)
  row_pinlabel : option pyval;      (** the label cell, [if pinlabel:] *)
  row_pincolor : option (option string);
                                    (** the colour cells, [if connector.pincolors:] *)
  row_port_right : option string    (** [port="p{pin}r"], if [ports_right] *)
}.

Record wire_row : Type := mkWireRow {
  wire_no : nat;                    (** [i], from 1 *)
  wire_port : string;               (** [port="w{i}"] *)
  wire_bgcolors : list string;      (** [bgcolors] *)
  wire_height : nat;                (** [height="{2 * len(bgcolors)}"] *)
  wire_stripes : list string        (** the cells, [bgcolors[::-1]] *)
}.

(** The cell of the shield row, lines 287-301; it has [port="ws"]. *)
Inductive shield_row : Type :=
| ShieldColored (hex : string)      (** [height="6" bgcolor=hex border="2" sides="tb"] *)
| ShieldThin                        (** [height="2" bgcolor="#000000" border="0"] *).

Inductive node_label : Type :=
| ConnectorLabel (pin_table : option (list pin_row))
| CableLabel (wires : list wire_row) (shield_cell : option shield_row)
             (substitutions : list (string * string)).

Inductive dot_stmt : Type :=
| DotAttr (kw : string) (attrs : list (string * string))
| DotNode (name : string) (label : node_label)
| DotEdge (tail_name head_name : string).

(** Lines 107-117 *)
Definition graph_defaults : list dot_stmt :=
  [ DotAttr "graph" [("rankdir", "LR"); ("ranksep", "2"); ("bgcolor", "white");
                     ("nodesep", "0.33"); ("fontname", "arial")];
    DotAttr "node" [("shape", "record"); ("style", "filled");
                    ("fillcolor", "white"); ("fontname", "arial")];
    DotAttr "edge" [("style", "bold"); ("fontname", "arial")] ].

(** ** Pass 1, lines 119-130: which sides of a connector get ports *)

(** Lines 122-125 *)
Definition prepare_connection (c : Connection) : M unit :=
  when (negb (is_none (from_port c)))
       (update_connector (from_name c) (set_ports_right true)) ;;
  when (negb (is_none (to_port c)))
       (update_connector (to_name c) (set_ports_left true)).

(** Lines 127-130 *)
Definition prepare_mate (m : MatePin) : M unit :=
  update_connector (Some (mate_from_name m)) (set_ports_right true) ;;
  update_connector (Some (mate_from_name m)) (activate_pin (mate_from_port m)) ;;
  update_connector (Some (mate_to_name m)) (set_ports_left true) ;;
  update_connector (Some (mate_to_name m)) (activate_pin (mate_to_port m)).

Definition prepare_ports : M unit :=
  h <- get ;;
  for_each (map snd (cables h))
           (fun cable => for_each (connections cable) prepare_connection) ;;
  for_each (mates_pin h) prepare_mate.

(** ** Connectors, lines 132-196 *)

(** Lines 154-175: the rows of the pin table. *)
Definition pin_rows (c : Connector) : list pin_row :=
  flat_map
    (fun '(pin, pinlabel, pincolor) =>
       let key := match pin with Some p => p | None => PyNone end in
       if hide_disconnected_pins c &&
          negb (match dict_get key (visible_pins c) with
                | Some b => b
                | None => false
                end)
       then []
       else
         [ {| row_pin := pin;
              row_port_left :=
                if ports_left c then Some ("p" ++ py_str key ++ "l")%string else None;
              row_pinlabel :=
                match pinlabel with
                | Some l => if py_truthy l then Some l else None
                | None => None
                end;
              row_pincolor :=
                match pincolors c with
                | [] => None
                | _ => Some pincolor
                end;
              row_port_right :=
                if ports_right c then Some ("p" ++ py_str key ++ "r")%string else None |} ])
    (zip_longest3 (pins c) (pinlabels c) (pincolors c)).

(** Lines 195-196: the edge of one loop, on the side [loop_side] and with
    the compass point [loop_dir]. *)
Definition loop_edge (c : Connector) (loop_side loop_dir : string)
    (loop : pyval * pyval) : dot_stmt :=
  DotEdge
    (connector_name c ++ ":p" ++ py_str (fst loop) ++ loop_side ++ ":" ++ loop_dir)%string
    (connector_name c ++ ":p" ++ py_str (snd loop) ++ loop_side ++ ":" ++ loop_dir)%string.

(** Lines 184-196 *)
Definition loop_stmts (c : Connector) : result (list dot_stmt) :=
  if Nat.ltb 0 (List.length (loops c)) then
    let! (loop_side, loop_dir) :=
      (if ports_left c then OK ("l", "w")
       else if ports_right c then OK ("r", "e")
       else Raise (PyException NoSideForLoops)) in
    OK (DotAttr "edge" [("color", "#000000:#ffffff:#000000")]
        :: map (loop_edge c loop_side loop_dir) (loops c))
  else OK [].

(** Lines 132-196, for one connector: its node, then its loops. The rows
    of lines 136-148 are made by helpers of other modules, which are
    taken to return. *)
Definition connector_stmts (c : Connector) : result (list dot_stmt) :=
  let label :=
    ConnectorLabel (if style_not_simple c then Some (pin_rows c) else None) in
  let! ls := loop_stmts c in
  OK (DotNode (connector_name c) label :: ls).

(** [for x in l: emit(x)], where emitting may raise. *)
Fixpoint emit_all {A B : Type} (emit : A -> result (list B)) (l : list A)
  : result (list B) :=
  match l with
  | [] => OK []
  | x :: l' =>
      let! out := emit x in
      let! rest := emit_all emit l' in
      OK (out ++ rest)
  end.

(** Line 201: the padding flag, one for the harness. *)
Definition harness_pad (h : Harness) : bool :=
  existsb (fun cable => existsb (fun colorstr => Nat.ltb 2 (py_len colorstr))
                                (colors cable))
          (map snd (cables h)).

(** ** Cables, lines 203-350 *)

Section Rendering.

(** [wv_colors.get_color_hex(input, pad=False)] and
    [wv_colors.default_color] belong to [wv_colors.py]: the rendering is
    stated for any such function and constant. *)
Variable get_color_hex : option string -> bool -> list string.
Variable default_color : string.

(** Lines 259-264: the bar of wire [i], whose colour token is
    [connection_color]. *)
Definition wire_bar (pad : bool) (i : nat) (connection_color : option string)
  : wire_row :=
  let bgcolors := ["#000000"] ++ get_color_hex connection_color pad ++ ["#000000"] in
  {| wire_no := i;
     wire_port := ("w" ++ py_str (PyInt (Z.of_nat i)))%string;
     wire_bgcolors := bgcolors;
     wire_height := 2 * List.length bgcolors;
     wire_stripes :=
       map (fun bgcolor =>
              if negb (String.eqb bgcolor EmptyString) then bgcolor else default_color)
           (rev bgcolors) |}.

(** Lines 240-267: one bar per wire position. *)
Definition wire_rows (pad : bool) (cable : Cable) : list wire_row :=
  map (fun '(i, (connection_color, _)) => wire_bar pad i connection_color)
      (enumerate 1 (zip_longest (colors cable) (wirelabels cable))).

(** [if cable.shield:] *)
Definition shield_truthy (s : shield_t) : bool :=
  match s with
  | ShieldBool b => b
  | ShieldStr c => negb (String.eqb c EmptyString)
  end.

(** Lines 287-301. The local [shield_color_hex] is assigned here and read
    again at line 314; it keeps its value from one cable to the next. *)
Definition shield_stmt (cable : Cable) (shield_color_hex : option string)
  : result (option shield_row * option string) :=
  if shield_truthy (shield cable) then
    match shield cable with
    | ShieldStr c =>
        match get_color_hex (Some c) false with
        | hex :: _ => OK (Some (ShieldColored hex), Some hex)
        | [] => Raise IndexError
        end
    | ShieldBool _ => OK (Some ShieldThin, shield_color_hex)
    end
  else OK (None, shield_color_hex).

(** Lines 310-314: the colour of the edges of a connection. *)
Definition edge_color (pad : bool) (cable : Cable)
    (shield_color_hex : option string) (connection : Connection)
  : result string :=
  match via_port connection with
  | PyInt z =>
      match py_nth (colors cable) (z - 1) with
      | Some c =>
          OK (str_join ":" (["#000000"] ++ get_color_hex (Some c) pad ++ ["#000000"]))
      | None => Raise IndexError
      end
  | _ =>
      match shield cable with
      | ShieldStr _ =>
          match shield_color_hex with
          | Some hex => OK (str_join ":" ["#000000"; hex; "#000000"])
          | None => Raise (UnboundLocalError "shield_color_hex")
          end
      | ShieldBool _ => OK "#000000"
      end
  end.

(** Lines 321-329 and 337-345: the text put next to a wire end. *)
Definition endpoint_text (c : Connector) (name : string) (port : pyval)
  : result string :=
  if connector_show_name c then
    let info := [name; py_str port] in
    let! info :=
      (match pinlabels c with
       | [] => OK info
       | _ =>
           match py_index port (pins c) with
           | Some i =>
               match nth_error (pinlabels c) i with
               | Some (PyStr pinlabel) =>
                   if negb (String.eqb pinlabel EmptyString)
                   then OK (info ++ [pinlabel])
                   else OK info
               | Some _ => Raise TypeError
               | None => Raise IndexError
               end
           | None => Raise ValueError
           end
       end) in
    OK (str_join ":" info)
  else OK EmptyString.

(** Lines 315-330: the edge from the connector on the left to the wire,
    and the text for the [<!-- w_in -->] placeholder. *)
Definition left_stmts (h : Harness) (cable : Cable) (connection : Connection)
  : result (list dot_stmt * list (string * string)) :=
  if negb (is_none (from_port connection)) then
    let! from_connector := find_connector h (from_name connection) in
    let name := py_str (name_val (from_name connection)) in
    let from_port_s :=
      (if style_not_simple from_connector
       then ":p" ++ py_str (from_port connection) ++ "r" else EmptyString)%string in
    let code_left_1 := (name ++ from_port_s ++ ":e")%string in
    let code_left_2 :=
      (cable_name cable ++ ":w" ++ py_str (via_port connection) ++ ":w")%string in
    let! from_string :=
      endpoint_text from_connector name (from_port connection) in
    OK ([DotEdge code_left_1 code_left_2],
        [(("<!-- " ++ py_str (via_port connection) ++ "_in -->")%string,
          from_string)])
  else OK ([], []).

(** Lines 331-346: the edge from the wire to the connector on the right,
    and the text for the [<!-- w_out -->] placeholder. *)
Definition right_stmts (h : Harness) (cable : Cable) (connection : Connection)
  : result (list dot_stmt * list (string * string)) :=
  if negb (is_none (to_port connection)) then
    let! to_connector := find_connector h (to_name connection) in
    let name := py_str (name_val (to_name connection)) in
    let code_right_1 :=
      (cable_name cable ++ ":w" ++ py_str (via_port connection) ++ ":e")%string in
    let to_port_s :=
      (if style_not_simple to_connector
       then ":p" ++ py_str (to_port connection) ++ "l" else EmptyString)%string in
    let code_right_2 := (name ++ to_port_s ++ ":w")%string in
    let! to_string := endpoint_text to_connector name (to_port connection) in
    OK ([DotEdge code_right_1 code_right_2],
        [(("<!-- " ++ py_str (via_port connection) ++ "_out -->")%string,
          to_string)])
  else OK ([], []).

(** Lines 309-346, for one connection. *)
Definition connection_stmts (pad : bool) (h : Harness) (cable : Cable)
    (shield_color_hex : option string) (connection : Connection)
  : result (list dot_stmt * list (string * string)) :=
  let! color := edge_color pad cable shield_color_hex connection in
  let! (le, ls) := left_stmts h cable connection in
  let! (re, rs) := right_stmts h cable connection in
  OK (DotAttr "edge" [("color", color)] :: le ++ re, ls ++ rs).

Fixpoint connections_stmts (pad : bool) (h : Harness) (cable : Cable)
    (shield_color_hex : option string) (l : list Connection)
  : result (list dot_stmt * list (string * string)) :=
  match l with
  | [] => OK ([], [])
  | connection :: l' =>
      let! (out, subst) :=
        connection_stmts pad h cable shield_color_hex connection in
      let! (out', subst') := connections_stmts pad h cable shield_color_hex l' in
      OK (out ++ out', subst ++ subst')
  end.

(** Lines 203-350, for one cable: the edges of its connections, then its
    node. Of the label the model keeps the bars of the wires, the shield
    row and the substituted texts. It leaves out the header rows (lines
    207-234), the text of a wire (lines 245-253, with the call of
    [translate_color]) and the rows of a bundle (lines 268-285): they add
    no statement to the graph and write nothing to the harness, but they
    can raise ([cable.gauge_unit.upper()], [cable.length > 0], the [join]
    of line 253 on a wire label that is no string, [cable.pn[i - 1]], and
    the helpers of other modules). What is stated of this loop is
    therefore stated of the graph it returns, not of its returning. *)
Definition cable_stmts (pad : bool) (h : Harness) (cable : Cable)
    (shield_color_hex : option string)
  : result (list dot_stmt * option string) :=
  let wires := wire_rows pad cable in
  let! (shield_cell, shield_color_hex) := shield_stmt cable shield_color_hex in
  let! (edges, substs) :=
    connections_stmts pad h cable shield_color_hex (connections cable) in
  OK (edges ++ [DotNode (cable_name cable) (CableLabel wires shield_cell substs)],
      shield_color_hex).

Fixpoint cables_stmts (pad : bool) (h : Harness) (l : list Cable)
    (shield_color_hex : option string) : result (list dot_stmt) :=
  match l with
  | [] => OK []
  | cable :: l' =>
      let! (out, shield_color_hex) := cable_stmts pad h cable shield_color_hex in
      let! rest := cables_stmts pad h l' shield_color_hex in
      OK (out ++ rest)
  end.

(** ** Mates, lines 352-365 *)

(** Lines 353-358. The local [dir] keeps its value when the shape is none
    of the three. *)
Definition mate_dir (shape : string) (dir : option string) : option string :=
  if String.eqb shape "<--" then Some "back"
  else if String.eqb shape "-->" then Some "forward"
  else if String.eqb shape "<->" then Some "both"
  else dir.

Fixpoint mates_stmts (h : Harness) (l : list MatePin) (dir : option string)
  : result (list dot_stmt) :=
  match l with
  | [] => OK []
  | mate :: l' =>
      let dir := mate_dir (mate_shape mate) dir in
      let! d :=
        (match dir with
         | Some d => OK d
         | None => Raise (UnboundLocalError "dir")
         end) in
      let! from_connector := find_connector h (Some (mate_from_name mate)) in
      let from_port_s :=
        (if style_not_simple from_connector
         then ":p" ++ py_str (mate_from_port mate) ++ "r" else EmptyString)%string in
      let code_from := (mate_from_name mate ++ from_port_s ++ ":e")%string in
      let! to_connector := find_connector h (Some (mate_to_name mate)) in
      let to_port_s :=
        (if style_not_simple to_connector
         then ":p" ++ py_str (mate_to_port mate) ++ "l" else EmptyString)%string in
      let code_to := (mate_to_name mate ++ to_port_s ++ ":w")%string in
      let! rest := mates_stmts h l' dir in
      OK (DotAttr "edge" [("color", "#000000"); ("style", "dashed"); ("dir", d)]
          :: DotEdge code_from code_to :: rest)
  end.

(** [Harness.create_graph], lines 102-367. The two comment lines that
    name the application are left out. *)
Definition create_graph : M (list dot_stmt) :=
  prepare_ports ;;
  h <- get ;;
  cs <- lift (emit_all connector_stmts (map snd (connectors h))) ;;
  let pad := harness_pad h in
  ws <- lift (cables_stmts pad h (map snd (cables h)) None) ;;
  ms <- lift (mates_stmts h (mates_pin h) None) ;;
  ret (graph_defaults ++ cs ++ ws ++ ms).

End Rendering.

(* ===================================================================== *)
(** * [Harness.bom] *)
(* ===================================================================== *)

Section Bom.

(** [wv_bom.generate_bom] belongs to [wv_bom.py]: a function of the
    harness. *)
Variable generate_bom : Harness -> list bom_entry.

(** [not l] for a list *)
Definition py_not_list {A : Type} (l : list A) : bool :=
  match l with
  | [] => true
  | _ => false
  end.

(** Lines 401-404 *)
Definition bom : M (list bom_entry) :=
  h <- get ;;
  when (py_not_list (_bom h)) (modify (set_bom (generate_bom h))) ;;
  h <- get ;;
  ret (_bom h).

End Bom.

(* ===================================================================== *)
(** * What a token is to a connector *)
(* ===================================================================== *)

(** The token names a pin and a label that sit at different positions. *)
Definition ambiguous_pin (c : Connector) (pin : pyval) : Prop :=
  py_in pin (pins c) = true /\ py_in pin (pinlabels c) = true /\
  py_index pin (pins c) <> py_index pin (pinlabels c).

(** The token is a label of more than one position. *)
Definition duplicate_label (c : Connector) (pin : pyval) : Prop :=
  1 < py_count pin (pinlabels c).

(** The token is neither a pin nor a label. *)
Definition unknown_pin (c : Connector) (pin : pyval) : Prop :=
  py_in pin (pins c) = false /\ py_in pin (pinlabels c) = false.

(** The token is a pin, and as a label it is either absent or the label of
    that very pin and of no other. *)
Definition plain_pin_id (c : Connector) (pin : pyval) : Prop :=
  py_in pin (pins c) = true /\
  (py_in pin (pinlabels c) = false \/
   (py_count pin (pinlabels c) = 1 /\
    py_index pin (pinlabels c) = py_index pin (pins c))).

(* ===================================================================== *)
(** * Sample objects *)
(* ===================================================================== *)

Definition sample_connector (name : string) (ps ls : list pyval) : Connector :=
  {| connector_name := name; pins := ps; pinlabels := ls; pincolors := [];
     connector_style := None; connector_show_name := true;
     hide_disconnected_pins := false; loops := []; visible_pins := [];
     ports_left := false; ports_right := false |}.

Definition sample_cable (name : string) (cs : list string) (ls : list pyval)
  : Cable :=
  {| cable_name := name; colors := cs; wirelabels := ls;
     shield := ShieldBool false; connections := [] |}.

(** The state a sequence of calls leaves, and whether it raised. *)
Definition run {A} (c : M A) (h : Harness) : Harness * result A := c h.

(** Connectors [A] and [B] with pins 1, 2 (labels [pwr], [gnd] on [A]) and
    the cable [W1] with two wires. *)
Definition harness_AB : Harness :=
  fst (run (add_connector "A" (sample_connector "A" [PyInt 1; PyInt 2]
                                 [PyStr "pwr"; PyStr "gnd"]) ;;
            add_connector "B" (sample_connector "B" [PyInt 1; PyInt 2] []) ;;
            add_cable "W1" (sample_cable "W1" ["RD"; "BK"] []))
           Harness_init).

(** The colours of a token, two characters each, each as the code [#]
    followed by the two characters. *)
Fixpoint color_components (s : string) : list string :=
  match s with
  | String a (String b s') => String "#" (String a (String b EmptyString)) :: color_components s'
  | String a EmptyString => [String "#" (String a EmptyString)]
  | EmptyString => []
  end.

(** Modelled from the spec: [wv_colors.get_color_hex] is not part of
    [Harness.py]. The spec has it return at least one hex code, and several
    for a token of several colours, and has the wires of a cable padded to
    the maximum stripe count present; [Harness.py] (lines 199-200) has the
    flag pad the wires of a single colour, so that all wires are of equal
    thickness when there are wires of two or three colours. Here an absent
    or empty token gives white; without the flag a token gives one code
    for each of its colours; with the flag a token of one or two colours
    is filled up to three codes by repeating its colours in turn, so that
    the tokens of one, two and three colours all give three codes. *)
Definition sample_color_hex (input : option string) (pad : bool) : list string :=
  match input with
  | None => ["#ffffff"]
  | Some s =>
      if String.eqb s EmptyString then ["#ffffff"]
      else if pad then
        match color_components s with
        | [a] => [a; a; a]
        | [a; b] => [a; b; a]
        | l => l
        end
      else color_components s
  end.

(** Modelled from the spec: [wv_bom.generate_bom] is not part of
    [Harness.py]. The spec has it list the connectors, the cables and the
    additional items of the harness in declaration order, identical parts
    grouped in one row. Here every declared part has a row of its own: the
    examples declare no two identical parts. *)
Definition sample_generate_bom (h : Harness) : list bom_entry :=
  map (fun '(n, _) => [("designators", PyStr n); ("qty", PyInt 1)]) (connectors h)
  ++ map (fun '(n, _) => [("designators", PyStr n); ("qty", PyInt 1)]) (cables h)
  ++ additional_bom_items h.

(** Connectors whose labels collide with their pins: on [X] the label [b]
    is given twice and is also the second pin; on [Y] the label [a] is
    given twice and is also the first pin. *)
Definition harness_XY : Harness :=
  fst (run (add_connector "X" (sample_connector "X" [PyStr "a"; PyStr "b"]
                                 [PyStr "b"; PyStr "b"]) ;;
            add_connector "Y" (sample_connector "Y" [PyStr "a"; PyStr "b"]
                                 [PyStr "a"; PyStr "a"]))
           harness_AB).



(** A connector [L] with a loop between its pins 1 and 2. *)
Definition connector_L : Connector :=
  {| connector_name := "L"; pins := [PyInt 1; PyInt 2]; pinlabels := [];
     pincolors := []; connector_style := None; connector_show_name := true;
     hide_disconnected_pins := false; loops := [(PyInt 1, PyInt 2)];
     visible_pins := []; ports_left := false; ports_right := false |}.

(** [L] alone: nothing is connected to it. *)
Definition harness_L : Harness :=
  fst (run (add_connector "L" connector_L) Harness_init).

(** [A:1 -- W1:1 -- L:1] and [L:2 -- W1:2 -- B:2]: [L] is on the right of
    one connection and on the left of another. *)
Definition harness_ALB : Harness :=
  fst (run (add_connector "L" connector_L ;;
            connect (Some "A") (PyInt 1) "W1" (PyInt 1) (Some "L") (PyInt 1) ;;
            connect (Some "L") (PyInt 2) "W1" (PyInt 2) (Some "B") (PyInt 2))
           harness_AB).


(* ===================================================================== *)
(** * What a call leaves *)
(* ===================================================================== *)

(** The state after lines 97-98 (or 99-100): the pin is activated on the
    connector of that name, if there is one. *)
Definition activated (name : option string) (pin : pyval) (h : Harness)
  : Harness :=
  match name with
  | Some n =>
      match dict_get n (connectors h) with
      | Some c => set_connectors (dict_set n (activate_pin pin c) (connectors h)) h
      | None => h
      end
  | None => h
  end.

(** The state after lines 96-100, when [cable] is the cable [via_name]. *)
Definition recorded (from_name : option string) (from_pin : pyval)
    (via_name : string) (via_wire : pyval)
    (to_name : option string) (to_pin : pyval) (cable : Cable) (h : Harness)
  : Harness :=
  activated to_name to_pin
    (activated from_name from_pin
       (set_cables
          (dict_set via_name
             (Cable_connect from_name from_pin via_wire to_name to_pin cable)
             (cables h)) h)).

(** The key under which an arrow is stored in [self.mates] (lines 75-78). *)
Definition arrow_key (via_name : string) (from_name : option string)
    (from_pin : pyval) (to_name : option string) (to_pin : pyval) : mate_key :=
  if str_contains "-" via_name
  then MatePinKey from_name from_pin to_name to_pin
  else MateComponentKey from_name to_name.

(** A connector without what [connect] and [create_graph] write on it:
    the activated pins and the two port flags. *)
Definition connector_core (c : Connector) : Connector :=
  mkConnector (connector_name c) (pins c) (pinlabels c) (pincolors c)
              (connector_style c) (connector_show_name c)
              (hide_disconnected_pins c) (loops c) [] false false.


(** The values of a dict seen through [f], with their keys and in their
    order. *)
Definition dict_map {K V W : Type} (f : V -> W) (d : dict K V) : dict K W :=
  map (fun kv => (fst kv, f (snd kv))) d.


(** A token is no colour of the cable, and a wire label exactly once. *)
Definition unique_wirelabel (cable : Cable) (token : pyval) : Prop :=
  py_in token (map PyStr (colors cable)) = false /\
  py_count token (wirelabels cable) = 1.

(** A token is no pin of the connector, and the label of position [i]
    and of no other; [p] is the pin at that position. *)
Definition labels_pin (c : Connector) (label : pyval) (p : pyval) : Prop :=
  py_in label (pins c) = false /\
  py_count label (pinlabels c) = 1 /\
  exists i, py_index label (pinlabels c) = Some i /\ nth_error (pins c) i = Some p.

(* ===================================================================== *)
(** * Pass 1 of [create_graph] as a list of steps *)
(* ===================================================================== *)

(** What lines 122-130 do to a connector: set a port flag or activate a
    pin. *)
Inductive port_step : Type :=
| SetPortsRight
| SetPortsLeft
| ActivatePin (pin : pyval).

Definition apply_step (s : port_step) (c : Connector) : Connector :=
  match s with
  | SetPortsRight => set_ports_right true c
  | SetPortsLeft => set_ports_left true c
  | ActivatePin pin => activate_pin pin c
  end.

(** The connector shows that the step was made. *)
Definition step_done (s : port_step) (c : Connector) : Prop :=
  match s with
  | SetPortsRight => ports_right c = true
  | SetPortsLeft => ports_left c = true
  | ActivatePin pin => dict_get pin (visible_pins c) = Some true
  end.

(** Lines 122-125, for one connection. *)
Definition connection_steps (c : Connection) : list (option string * port_step) :=
  (if negb (is_none (from_port c)) then [(from_name c, SetPortsRight)] else [])
  ++ (if negb (is_none (to_port c)) then [(to_name c, SetPortsLeft)] else []).

(** Lines 127-130, for one mate. *)
Definition mate_steps (m : MatePin) : list (option string * port_step) :=
  [ (Some (mate_from_name m), SetPortsRight);
    (Some (mate_from_name m), ActivatePin (mate_from_port m));
    (Some (mate_to_name m), SetPortsLeft);
    (Some (mate_to_name m), ActivatePin (mate_to_port m)) ].

(** Lines 120-130: the steps of pass 1, in their order. *)
Definition pass1_steps (h : Harness) : list (option string * port_step) :=
  flat_map (fun cable => flat_map connection_steps (connections cable))
           (map snd (cables h))
  ++ flat_map mate_steps (mates_pin h).

Definition run_steps (l : list (option string * port_step)) : M unit :=
  for_each l (fun ns => update_connector (fst ns) (apply_step (snd ns))).

(** A connector that is as another but for port flags and activated pins
    that it has in addition. *)
Definition grows (c c' : Connector) : Prop :=
  connector_core c' = connector_core c
  /\ (ports_left c = true -> ports_left c' = true)
  /\ (ports_right c = true -> ports_right c' = true)
  /\ (forall p, dict_get p (visible_pins c) = Some true ->
                dict_get p (visible_pins c') = Some true).

(** The same names in the same order, each connector grown. *)
Definition connectors_grow (d d' : dict string Connector) : Prop :=
  Forall2 (fun a b => fst a = fst b /\ grows (snd a) (snd b)) d d'.



(** The names of the nodes of a graph, in their order. *)
Definition node_names (g : list dot_stmt) : list string :=
  flat_map (fun s => match s with
                     | DotNode name _ => [name]
                     | _ => []
                     end) g.

(** The edges of a graph, in their order. *)
Definition graph_edges (g : list dot_stmt) : list (string * string) :=
  flat_map (fun s => match s with
                     | DotEdge a b => [(a, b)]
                     | _ => []
                     end) g.

(* ===================================================================== *)
(** * The methods of the class, as calls *)
(* ===================================================================== *)

(** [NameError]: a name that is neither defined nor imported. *)
Inductive name_error : Type :=
| NameError (name : string).

(** [add_mate_pin], lines 42-43. The name [MatePin] is neither defined nor
    imported in [Harness.py] (line 12 imports [Connector] and [Cable]
    only): the argument of [append] raises [NameError] and nothing is
    appended, whatever the arguments. *)
Definition add_mate_pin (args : list pyval) (h : Harness)
  : Harness * (unit + name_error) :=
  (h, inr (NameError "MatePin")).

(** [add_mate_component], lines 45-46: likewise for [MateComponent]. *)
Definition add_mate_component (args : list pyval) (h : Harness)
  : Harness * (unit + name_error) :=
  (h, inr (NameError "MateComponent")).

(** A call of a method of [Harness]. The properties [png] and [svg] call
    [create_graph]; [output] calls [create_graph] and then [bom]. *)
Inductive api_call : Type :=
| CallAddConnector (name : string) (c : Connector)
| CallAddCable (name : string) (c : Cable)
| CallAddMatePin (args : list pyval)
| CallAddMateComponent (args : list pyval)
| CallAddBomItem (item : bom_entry)
| CallConnect (from_name : option string) (from_pin : pyval)
              (via_name : string) (via_wire : pyval)
              (to_name : option string) (to_pin : pyval)
| CallCreateGraph
| CallBom.

Section Calls.
Variable get_color_hex : option string -> bool -> list string.
Variable default_color : string.
Variable generate_bom : Harness -> list bom_entry.

(** The state a call leaves, whether it returns or raises. *)
Definition state_after (call : api_call) (h : Harness) : Harness :=
  match call with
  | CallAddConnector name c => fst (add_connector name c h)
  | CallAddCable name c => fst (add_cable name c h)
  | CallAddMatePin args => fst (add_mate_pin args h)
  | CallAddMateComponent args => fst (add_mate_component args h)
  | CallAddBomItem item => fst (add_bom_item item h)
  | CallConnect fn fp via vw tn tp => fst (connect fn fp via vw tn tp h)
  | CallCreateGraph => fst (create_graph get_color_hex default_color h)
  | CallBom => fst (bom generate_bom h)
  end.

(** The state after a sequence of calls on a new harness. *)
Definition harness_after (calls : list api_call) : Harness :=
  fold_left (fun h call => state_after call h) calls Harness_init.

End Calls.

(* ===================================================================== *)
(** * More sample objects *)
(* ===================================================================== *)

(** The cable [W3]: two wires, with colours and labels. *)
Definition cable_W3 : Cable :=
  sample_cable "W3" ["RD"; "BK"] [PyStr "sig"; PyStr "gnd"].

(** [harness_AB] with the cable [W3]. *)
Definition harness_W3 : Harness :=
  fst (run (add_cable "W3" cable_W3) harness_AB).

(** [harness_AB] with a connection from [Z:1], where no connector [Z] was
    declared. *)
Definition harness_Z : Harness :=
  fst (run (connect (Some "Z") (PyInt 1) "W1" (PyInt 1) (Some "B") (PyInt 1))
           harness_AB).

(** [L:1 -- W1:1 -- B:1]: the connector [L], which has a loop, is on the
    left of a connection and on the right of none. *)
Definition harness_LB : Harness :=
  fst (run (add_connector "L" connector_L ;;
            connect (Some "L") (PyInt 1) "W1" (PyInt 1) (Some "B") (PyInt 1))
           harness_AB).

(** The cable [WS]: two wires and a green shield. *)
Definition cable_WS : Cable :=
  {| cable_name := "WS"; colors := ["RD"; "BK"]; wirelabels := [];
     shield := ShieldStr "GN"; connections := [] |}.

(** [harness_AB] with the cable [WS]. *)
Definition harness_WS : Harness :=
  fst (run (add_cable "WS" cable_WS) harness_AB).



(** [harness_AB] with the attribute [mates], set from outside the class. *)
Definition harness_AB_mates : Harness := set_mates (Some []) harness_AB.

(** A connector that hides its disconnected pins, with pin 2 activated. *)
Definition connector_H : Connector :=
  {| connector_name := "H"; pins := [PyInt 1; PyInt 2]; pinlabels := [];
     pincolors := []; connector_style := None; connector_show_name := true;
     hide_disconnected_pins := true; loops := [];
     visible_pins := [(PyInt 2, true)]; ports_left := true; ports_right := false |}.

(** A sequence of calls: two connectors, a cable, a connection, the graph,
    the bill of materials. *)
Definition sample_calls : list api_call :=
  [ CallAddConnector "A" (sample_connector "A" [PyInt 1; PyInt 2] []);
    CallAddConnector "B" (sample_connector "B" [PyInt 1; PyInt 2] []);
    CallAddCable "W1" (sample_cable "W1" ["RD"; "BK"] []);
    CallAddMatePin [PyStr "A"; PyInt 1; PyStr "B"; PyInt 1; PyStr "<->"];
    CallConnect (Some "A") (PyInt 1) "W1" (PyInt 1) (Some "B") (PyInt 1);
    CallCreateGraph;
    CallBom ].

(* ===================================================================== *)
(** * Properties of the containers *)
(* ===================================================================== *)

Lemma py_eqb_refl {A} `{PyEq A} (x : A) : py_eqb x x = true.
Proof. now apply py_eqb_eq. Qed.

Lemma py_eqb_neq {A} `{PyEq A} (x y : A) : py_eqb x y = false <-> x <> y.
Proof.
  split.
  - intros E ->. rewrite py_eqb_refl in E. discriminate.
  - intros N. destruct (py_eqb x y) eqn:E; [|reflexivity].
    apply py_eqb_eq in E. contradiction.
Qed.

Section PyListFacts.
Context {A : Type} `{PyEq A}.

Lemma py_in_In (x : A) (l : list A) : py_in x l = true <-> In x l.
Proof.
  induction l as [|y l IH]; simpl.
  - split; [discriminate | contradiction].
  - rewrite orb_true_iff, IH, py_eqb_eq. reflexivity.
Qed.

Lemma py_index_in (x : A) (l : list A) :
  py_in x l = true -> exists i, py_index x l = Some i /\ nth_error l i = Some x.
Proof.
  induction l as [|y l IH]; simpl; [discriminate|].
  destruct (py_eqb y x) eqn:E.
  - intros _. exists 0. apply py_eqb_eq in E. now subst.
  - simpl. intros Hin. destruct (IH Hin) as (i & -> & Hn). now exists (S i).
Qed.


Lemma py_count_not_in (x : A) (l : list A) :
  py_in x l = false -> py_count x l = 0.
Proof.
  induction l as [|y l IH]; simpl; [reflexivity|].
  destruct (py_eqb y x); simpl; [discriminate|]. exact IH.
Qed.

End PyListFacts.

Section PyDictFacts.
Context {K V : Type} `{PyEq K}.

Lemma dict_get_set_same (k : K) (v : V) (d : dict K V) :
  dict_get k (dict_set k v d) = Some v.
Proof.
  induction d as [|[k' v'] d IH]; simpl.
  - now rewrite py_eqb_refl.
  - destruct (py_eqb k' k) eqn:E; simpl; rewrite E; [reflexivity | exact IH].
Qed.

Lemma dict_get_set_other (k k0 : K) (v : V) (d : dict K V) :
  k0 <> k -> dict_get k0 (dict_set k v d) = dict_get k0 d.
Proof.
  intros N. induction d as [|[k' v'] d IH]; simpl.
  - assert (E : py_eqb k k0 = false) by (apply py_eqb_neq; congruence).
    now rewrite E.
  - destruct (py_eqb k' k) eqn:E; simpl.
    + apply py_eqb_eq in E. subst k'.
      assert (E : py_eqb k k0 = false) by (apply py_eqb_neq; congruence).
      now rewrite E.
    + destruct (py_eqb k' k0); [reflexivity | exact IH].
Qed.


End PyDictFacts.

Lemma dict_mem_get {K V} `{PyEq K} (k : K) (d : dict K V) :
  dict_mem k d = true -> exists v, dict_get k d = Some v.
Proof.
  unfold dict_mem. destruct (dict_get k d) as [v|]; [now exists v | discriminate].
Qed.

Lemma dict_mem_none {K V} `{PyEq K} (k : K) (d : dict K V) :
  dict_get k d = None -> dict_mem k d = false.
Proof. unfold dict_mem. now intros ->. Qed.

Lemma not_In_py_in {A} `{PyEq A} (x : A) (l : list A) :
  ~ In x l -> py_in x l = false.
Proof.
  intros N. destruct (py_in x l) eqn:E; [|reflexivity].
  apply py_in_In in E. contradiction.
Qed.

(** [len] counts characters, not bytes: the two characters of two bytes
    each (C3 84, C3 96) make a string of length 2. *)
Lemma py_len_two_byte_characters :
  py_len (String (ascii_of_nat 195) (String (ascii_of_nat 132)
            (String (ascii_of_nat 195) (String (ascii_of_nat 150) EmptyString))))
  = 2.
Proof. reflexivity. Qed.

(** On a string of one-byte characters, [len] is the number of bytes. *)
Lemma py_len_one_byte_characters (s : string) :
  (forall a, In a (list_ascii_of_string s) -> is_continuation_byte a = false) ->
  py_len s = String.length s.
Proof.
  induction s as [|a s IH]; simpl; intros N; [reflexivity|].
  rewrite (N a (or_introl eq_refl)), IH; [reflexivity|].
  intros b Hb. apply N. now right.
Qed.

(** [zip_longest] and [enumerate] by position. *)

Lemma zip_longest_nil_r {A B} (l : list A) :
  zip_longest l (@nil B) = map (fun a => (Some a, None)) l.
Proof. induction l as [|x l IH]; simpl; [reflexivity | now rewrite IH]. Qed.

Lemma zip_longest_nth {A B} (l1 : list A) (l2 : list B) (i : nat) :
  nth_error (zip_longest l1 l2) i
  = if Nat.ltb i (Nat.max (List.length l1) (List.length l2))
    then Some (nth_error l1 i, nth_error l2 i)
    else None.
Proof.
  revert l2 i. induction l1 as [|x l1 IH]; intros l2 i.
  - destruct l2 as [|y l2]; simpl.
    + now destruct i.
    + destruct i as [|i]; simpl; [reflexivity|].
      rewrite nth_error_map. change (S i <? S (List.length l2))%nat
        with (i <? List.length l2)%nat.
      destruct (Nat.ltb i (List.length l2)) eqn:L.
      * apply Nat.ltb_lt in L. apply nth_error_Some in L.
        destruct (nth_error l2 i); [now destruct i | contradiction].
      * apply Nat.ltb_ge in L. apply nth_error_None in L. now rewrite L.
  - destruct l2 as [|y l2]; destruct i as [|i]; simpl; try reflexivity.
    + rewrite zip_longest_nil_r, nth_error_map.
      change (S i <? S (List.length l1))%nat with (i <? List.length l1)%nat.
      destruct (Nat.ltb i (List.length l1)) eqn:L.
      * apply Nat.ltb_lt in L. apply nth_error_Some in L.
        destruct (nth_error l1 i); [now destruct i | contradiction].
      * apply Nat.ltb_ge in L. apply nth_error_None in L. now rewrite L.
    + rewrite IH. reflexivity.
Qed.

Lemma zip_longest_length {A B} (l1 : list A) (l2 : list B) :
  List.length (zip_longest l1 l2) = Nat.max (List.length l1) (List.length l2).
Proof.
  revert l2. induction l1 as [|x l1 IH]; intros [|y l2]; simpl;
    try reflexivity.
  - now rewrite length_map.
  - now rewrite zip_longest_nil_r, length_map.
  - now rewrite IH.
Qed.

Lemma enumerate_nth {A} (l : list A) (start i : nat) :
  nth_error (enumerate start l) i
  = option_map (fun x => (start + i, x)) (nth_error l i).
Proof.
  revert start i. induction l as [|x l IH]; intros start [|i]; simpl;
    try reflexivity.
  - now rewrite Nat.add_0_r.
  - rewrite IH. now rewrite Nat.add_succ_r.
Qed.

Lemma enumerate_length {A} (l : list A) (start : nat) :
  List.length (enumerate start l) = List.length l.
Proof. revert start. induction l; intros; simpl; [reflexivity | now f_equal]. Qed.

(* ===================================================================== *)
(** * Properties of [connect] *)
(* ===================================================================== *)

(** Unfolds the monad: a sequence of calls becomes a [match] on what each
    call leaves. *)
Ltac unfold_m :=
  unfold when in *; unfold bind, get, lift, ret, raise, modify in *.

(** Activating a pin never raises and leaves the cables alone. *)
Lemma activate_endpoint_ok (name : option string) (pin : pyval) (h : Harness) :
  exists h', activate_endpoint name pin h = (h', OK tt)
             /\ cables h' = cables h.
Proof.
  destruct name as [n|].
  - destruct (dict_get n (connectors h)) as [c|] eqn:E.
    + exists (set_connectors (dict_set n (activate_pin pin c) (connectors h)) h).
      unfold activate_endpoint, update_connector, get_connector, find_connector,
        has_connector, dict_mem. unfold_m. rewrite E. simpl. rewrite E.
      split; reflexivity.
    + exists h.
      unfold activate_endpoint, has_connector, dict_mem. unfold_m. rewrite E.
      split; reflexivity.
  - exists h. split; reflexivity.
Qed.

(** Lines 96-100 raise exactly when no cable is called [via_name], and
    then with [KeyError]; otherwise the record goes to the end of the
    connections of that cable. *)
Lemma record_connection_spec (fn : option string) (fp : pyval) (via : string)
    (vw : pyval) (tn : option string) (tp : pyval) (h : Harness) :
  match dict_get via (cables h) with
  | None => record_connection fn fp via vw tn tp h = (h, Raise (KeyError (PyStr via)))
  | Some cable =>
      exists h', record_connection fn fp via vw tn tp h = (h', OK tt)
                 /\ cables h' = dict_set via (Cable_connect fn fp vw tn tp cable) (cables h)
  end.
Proof.
  unfold record_connection, get_cable. unfold_m.
  destruct (dict_get via (cables h)) as [cable|]; [|reflexivity].
  set (h1 := set_cables _ h).
  destruct (activate_endpoint_ok fn fp h1) as (h2 & E2 & C2).
  destruct (activate_endpoint_ok tn tp h2) as (h3 & E3 & C3).
  exists h3. rewrite E2, E3. split; [reflexivity|].
  rewrite C3, C2. reflexivity.
Qed.

(** When [via_name] is no arrow, lines 74-94 leave the state alone. *)
Lemma check_via_no_arrow (fn : option string) (fp : pyval) (via : string)
    (vw : pyval) (tn : option string) (tp : pyval) (h : Harness) :
  py_in via arrows = false ->
  check_via fn fp via vw tn tp h =
    match dict_get via (cables h) with
    | Some cable => (h, resolve_wire via cable vw)
    | None => (h, OK vw)
    end.
Proof.
  intros NA. unfold check_via, get_cable, dict_mem. unfold_m. rewrite NA.
  destruct (dict_get via (cables h)) as [cable|] eqn:E; [|reflexivity].
  rewrite E. destruct (resolve_wire via cable vw); reflexivity.
Qed.

(** When [via_name] is an arrow, lines 74-79 need the attribute [mates]. *)
Lemma check_via_arrow (fn : option string) (fp : pyval) (via : string)
    (vw : pyval) (tn : option string) (tp : pyval) (h : Harness) :
  py_in via arrows = true ->
  match mates h with
  | None => check_via fn fp via vw tn tp h = (h, Raise (AttributeError "mates"))
  | Some m =>
      exists m', check_via fn fp via vw tn tp h = (set_mates (Some m') h, OK vw)
  end.
Proof.
  intros A. unfold check_via, record_mate, get_mates. unfold_m. rewrite A.
  destruct (mates h) as [m|] eqn:Em.
  - destruct (str_contains "-" via); simpl.
    + rewrite Em. simpl. eexists. reflexivity.
    + destruct (str_contains "=" via); simpl; rewrite Em; simpl.
      * eexists. reflexivity.
      * exists m. destruct h; simpl in *. now subst.
  - destruct (str_contains "-" via); simpl; rewrite ?Em; [reflexivity|].
    destruct (str_contains "=" via); simpl; rewrite ?Em; reflexivity.
Qed.

(** Lines 74-94 never touch the cables, and a call that raises there has
    changed nothing. *)
Lemma check_via_state (fn : option string) (fp : pyval) (via : string)
    (vw : pyval) (tn : option string) (tp : pyval) (h h1 : Harness)
    (r : result pyval) :
  check_via fn fp via vw tn tp h = (h1, r) ->
  cables h1 = cables h /\ (forall e, r = Raise e -> h1 = h).
Proof.
  intros E. destruct (py_in via arrows) eqn:A.
  - pose proof (check_via_arrow fn fp via vw tn tp h A) as S.
    destruct (mates h) as [m|].
    + destruct S as (m' & S). rewrite S in E. injection E as <- <-.
      split; [reflexivity | discriminate].
    + rewrite S in E. injection E as <- <-. split; [reflexivity | reflexivity].
  - rewrite (check_via_no_arrow fn fp via vw tn tp h A) in E.
    destruct (dict_get via (cables h)); injection E as <- <-;
      (split; [reflexivity | reflexivity]).
Qed.

(** The only exceptions of lines 74-94 are the two wire failures and the
    missing attribute. *)
Lemma resolve_wire_raises (via : string) (cable : Cable) (vw : pyval) (e : pyexn) :
  resolve_wire via cable vw = Raise e ->
  e = PyException (AmbiguousWire via vw) \/ e = PyException (DuplicateWire via vw).
Proof.
  unfold resolve_wire.
  set (cs := map PyStr (colors cable)). set (ls := wirelabels cable).
  destruct (py_in vw cs) eqn:Ic; destruct (py_in vw ls) eqn:Il; simpl.
  - destruct (negb _); simpl; [intros [= <-]; now left|].
    destruct (Nat.ltb 1 (py_count vw cs)); [intros [= <-]; now right|].
    destruct (py_index_in _ _ Ic) as (i & -> & _). discriminate.
  - destruct (Nat.ltb 1 (py_count vw cs)); [intros [= <-]; now right|].
    destruct (py_index_in _ _ Ic) as (i & -> & _). discriminate.
  - destruct (Nat.ltb 1 (py_count vw ls)); [intros [= <-]; now right|].
    destruct (py_index_in _ _ Il) as (i & -> & _). discriminate.
  - discriminate.
Qed.

(** [connect] as the three steps it is made of. *)
Lemma connect_steps (fn : option string) (fp : pyval) (via : string)
    (vw : pyval) (tn : option string) (tp : pyval) (h : Harness) :
  connect fn fp via vw tn tp h =
    match check_endpoints h fn fp tn tp with
    | Raise e => (h, Raise e)
    | OK (fp', tp') =>
        match check_via fn fp' via vw tn tp' h with
        | (h1, Raise e) => (h1, Raise e)
        | (h1, OK vw') => record_connection fn fp' via vw' tn tp' h1
        end
    end.
Proof.
  unfold connect. unfold_m.
  destruct (check_endpoints h fn fp tn tp) as [[fp' tp']|e]; reflexivity.
Qed.

(** ** The endpoint loop *)

Lemma py_count_pos_in {A} `{PyEq A} (x : A) (l : list A) :
  0 < py_count x l -> py_in x l = true.
Proof.
  intros C. destruct (py_in x l) eqn:E; [reflexivity|].
  rewrite (py_count_not_in _ _ E) in C. lia.
Qed.

Lemma option_eqb_neq {A} `{PyEq A} (a b : option A) :
  option_eqb a b = false <-> a <> b.
Proof. exact (py_eqb_neq (A:=option A) a b). Qed.

Lemma check_endpoints_steps (h : Harness) (fn : option string) (fp : pyval)
    (tn : option string) (tp : pyval) :
  check_endpoints h fn fp tn tp =
    match check_endpoint h fn tn fn fp (fp, tp) with
    | OK locals => check_endpoint h fn tn tn tp locals
    | Raise e => Raise e
    end.
Proof.
  unfold check_endpoints. cbn [combine for_result]. unfold rbind.
  destruct (check_endpoint h fn tn fn fp (fp, tp)) as [locals|e]; [|reflexivity].
  destruct (check_endpoint h fn tn tn tp locals); reflexivity.
Qed.

Section Endpoint.
Variables (h : Harness) (fn tn : option string) (n : string) (c : Connector).
Hypothesis Hc : dict_get n (connectors h) = Some c.

Lemma check_endpoint_ambiguous (pin : pyval) (locals : pyval * pyval) :
  ambiguous_pin c pin ->
  check_endpoint h fn tn (Some n) pin locals
  = Raise (PyException (AmbiguousPin n pin)).
Proof.
  intros (Ip & Il & D). unfold check_endpoint. destruct locals as [a b].
  rewrite Hc, Ip, Il. simpl.
  assert (E : option_eqb (py_index pin (pins c)) (py_index pin (pinlabels c)) = false)
    by (apply option_eqb_neq; exact D).
  rewrite E. reflexivity.
Qed.

Lemma check_endpoint_duplicate (pin : pyval) (locals : pyval * pyval) :
  ~ ambiguous_pin c pin -> duplicate_label c pin ->
  check_endpoint h fn tn (Some n) pin locals
  = Raise (PyException (DuplicatePin n pin)).
Proof.
  intros NA D. unfold check_endpoint. destruct locals as [a b]. rewrite Hc.
  assert (Il : py_in pin (pinlabels c) = true)
    by (apply py_count_pos_in; unfold duplicate_label in D; lia).
  assert (L : Nat.ltb 1 (py_count pin (pinlabels c)) = true)
    by (apply Nat.ltb_lt; exact D).
  rewrite Il, L.
  destruct (py_in pin (pins c)) eqn:Ip; simpl; [|reflexivity].
  destruct (option_eqb (py_index pin (pins c)) (py_index pin (pinlabels c))) eqn:E;
    simpl; [reflexivity|].
  exfalso. apply NA. repeat split; try assumption.
  apply option_eqb_neq. exact E.
Qed.

Lemma check_endpoint_unknown (pin : pyval) (locals : pyval * pyval) :
  unknown_pin c pin ->
  check_endpoint h fn tn (Some n) pin locals
  = Raise (PyException (PinNotFound n pin)).
Proof.
  intros (Ip & Il). unfold check_endpoint. destruct locals as [a b].
  rewrite Hc, Ip, Il. simpl. rewrite Ip. reflexivity.
Qed.

(** A plain pin ID goes through the body of the loop as it is: the only
    local that may be assigned is the one of this endpoint, and it gets
    the token itself. *)
Lemma check_endpoint_plain (pin : pyval) (from_pin to_pin : pyval) :
  plain_pin_id c pin ->
  exists from_pin' to_pin',
    check_endpoint h fn tn (Some n) pin (from_pin, to_pin)
    = OK (from_pin', to_pin')
    /\ (from_pin' = from_pin \/ (from_pin' = pin /\ fn = Some n))
    /\ (to_pin' = to_pin \/ (to_pin' = pin /\ tn = Some n)).
Proof.
  intros (Ip & [Il | (Cn & Ix)]); unfold check_endpoint; rewrite Hc, Ip.
  - rewrite Il. simpl. rewrite Ip. simpl. exists from_pin, to_pin. auto.
  - assert (Il : py_in pin (pinlabels c) = true)
      by (apply py_count_pos_in; lia).
    rewrite Il, Cn, Ix.
    destruct (py_index_in _ _ Ip) as (i & Ei & Hn). rewrite Ei, Hn.
    destruct (py_eqb (Some n) fn) eqn:E1; destruct (py_eqb (Some n) tn) eqn:E2;
      simpl; rewrite Nat.eqb_refl; simpl; rewrite Ip; simpl;
      eexists _, _; (split; [reflexivity|]);
      try (apply py_eqb_eq in E1); try (apply py_eqb_eq in E2); auto.
Qed.
End Endpoint.

(** The body of the loop for one endpoint assigns the local of the other
    endpoint only when both endpoints have the same name. *)
Lemma check_endpoint_other_local (h : Harness) (fn tn name : option string)
    (pin : pyval) (locals locals' : pyval * pyval) :
  check_endpoint h fn tn name pin locals = OK locals' ->
  (name <> fn -> fst locals' = fst locals) /\
  (name <> tn -> snd locals' = snd locals).
Proof.
  unfold check_endpoint. destruct locals as [a b].
  destruct name as [n|]; [|intros [= <-]; auto].
  destruct (dict_get n (connectors h)) as [c|]; [|intros [= <-]; auto].
  destruct (py_eqb (Some n) fn) eqn:E1; destruct (py_eqb (Some n) tn) eqn:E2;
    try (apply py_eqb_eq in E1); try (apply py_eqb_eq in E2);
    repeat (simpl;
            match goal with
            | |- context [if ?b then _ else _] => destruct b
            | |- context [match ?x with Some _ => _ | None => _ end] => destruct x
            end);
    simpl; try discriminate; intros [= <-]; simpl; split; intros N;
    try reflexivity; contradiction.
Qed.

(** A call that returns has put its record at the end of the connections
    of the cable [via_name], with the pins the endpoint loop yields. *)
Lemma connect_returns (h h' : Harness) (fn : option string) (fp : pyval)
    (via : string) (vw : pyval) (tn : option string) (tp : pyval) :
  connect fn fp via vw tn tp h = (h', OK tt) ->
  exists fp' tp' vw' cable,
    check_endpoints h fn fp tn tp = OK (fp', tp')
    /\ dict_get via (cables h) = Some cable
    /\ cables h' = dict_set via (Cable_connect fn fp' vw' tn tp' cable) (cables h).
Proof.
  rewrite connect_steps.
  destruct (check_endpoints h fn fp tn tp) as [[fp' tp']|e]; [|discriminate].
  destruct (check_via fn fp' via vw tn tp' h) as [h1 [vw'|e]] eqn:V; [|discriminate].
  destruct (check_via_state _ _ _ _ _ _ _ _ _ V) as (C1 & _).
  pose proof (record_connection_spec fn fp' via vw' tn tp' h1) as R.
  rewrite C1 in R.
  destruct (dict_get via (cables h)) as [cable|].
  - destruct R as (h2 & R & C2). rewrite R. intros [= <-].
    exists fp', tp', vw', cable. rewrite C2. auto.
  - rewrite R. discriminate.
Qed.

(** ** Arrows *)

(** C1. A call of [connect] with the arrow [<->] between [A:1] and [B:1]
    does not complete. On a harness as [__init__] leaves it, the attribute
    [mates] does not exist and the call raises [AttributeError]; once the
    attribute is there, the mate is stored and the call goes on to
    [self.cables["<->"]], which raises [KeyError]. *)
Theorem connect_arrow_does_not_complete :
  connect (Some "A") (PyInt 1) "<->" PyNone (Some "B") (PyInt 1) harness_AB
  = (harness_AB, Raise (AttributeError "mates"))
  /\
  connect (Some "A") (PyInt 1) "<->" PyNone (Some "B") (PyInt 1)
          (set_mates (Some []) harness_AB)
  = (set_mates (Some [(MatePinKey (Some "A") (PyInt 1) (Some "B") (PyInt 1), "<->")])
               harness_AB,
     Raise (KeyError (PyStr "<->"))).
Proof. split; reflexivity. Qed.

(** Whatever [via_name] is, a call that returns has read [self.cables] and
    found a cable of that name: with an arrow, a call can only return on a
    harness that has a cable named like the arrow, and then that cable gets
    the connection. *)
Lemma connect_returns_through_cable (h h' : Harness) (fn : option string)
    (fp : pyval) (via : string) (vw : pyval) (tn : option string) (tp : pyval) :
  connect fn fp via vw tn tp h = (h', OK tt) ->
  exists cable cable',
    dict_get via (cables h) = Some cable
    /\ dict_get via (cables h') = Some cable'
    /\ List.length (connections cable') = S (List.length (connections cable)).
Proof.
  intros E. destruct (connect_returns _ _ _ _ _ _ _ _ E)
    as (fp' & tp' & vw' & cable & _ & G & C).
  exists cable, (Cable_connect fn fp' vw' tn tp' cable).
  split; [exact G|]. split.
  - rewrite C. apply dict_get_set_same.
  - simpl. rewrite length_app. simpl. lia.
Qed.

(** With an arrow and valid endpoints, a harness that lacks the attribute
    [mates] makes the call raise [AttributeError], whatever the harness
    holds otherwise. *)
Lemma connect_arrow_without_mates (h : Harness) (fn : option string)
    (fp : pyval) (via : string) (vw : pyval) (tn : option string) (tp : pyval)
    (fp' tp' : pyval) :
  In via arrows ->
  mates h = None ->
  check_endpoints h fn fp tn tp = OK (fp', tp') ->
  connect fn fp via vw tn tp h = (h, Raise (AttributeError "mates")).
Proof.
  intros A Nm V. rewrite connect_steps, V.
  pose proof (check_via_arrow fn fp' via vw tn tp' h
                (proj2 (py_in_In via arrows) A)) as S.
  rewrite Nm in S. now rewrite S.
Qed.

(** ** A [via_name] that is neither an arrow nor a cable *)

(** C10. When [via_name] is neither an arrow nor the name of a cable, the
    call raises [KeyError] at [self.cables[via_name]] once the endpoint
    loop has gone through; when the endpoint loop raises, that exception
    comes first. The state is as before in both cases. *)
Theorem connect_unknown_via_raises_KeyError (h : Harness) (fn : option string)
    (fp : pyval) (via : string) (vw : pyval) (tn : option string) (tp : pyval) :
  ~ In via arrows ->
  dict_get via (cables h) = None ->
  connect fn fp via vw tn tp h =
    match check_endpoints h fn fp tn tp with
    | OK _ => (h, Raise (KeyError (PyStr via)))
    | Raise e => (h, Raise e)
    end.
Proof.
  intros NA NC. rewrite connect_steps.
  destruct (check_endpoints h fn fp tn tp) as [[fp' tp']|e]; [|reflexivity].
  rewrite (check_via_no_arrow _ _ _ _ _ _ _ (not_In_py_in _ _ NA)), NC.
  pose proof (record_connection_spec fn fp' via vw tn tp' h) as R.
  rewrite NC in R. exact R.
Qed.

Lemma connect_unknown_via_raises_KeyError_witness :
  connect (Some "A") (PyInt 1) "W9" (PyInt 1) (Some "B") (PyInt 1) harness_AB
  = (harness_AB, Raise (KeyError (PyStr "W9"))).
Proof.
  apply (connect_unknown_via_raises_KeyError harness_AB (Some "A") (PyInt 1)
           "W9" (PyInt 1) (Some "B") (PyInt 1)).
  - simpl. intros [E|[E|[E|[E|[E|[E|[]]]]]]]; discriminate E.
  - reflexivity.
Defined.

(** ** Wires *)


(** ** Failures leave no trace *)

(** C5. When [connect] raises one of its validation errors, the harness is
    as it was before the call: every cable has the connections it had and
    every connector the activated pins it had. *)
Theorem connect_validation_error_keeps_state (h h' : Harness)
    (fn : option string) (fp : pyval) (via : string) (vw : pyval)
    (tn : option string) (tp : pyval) (e : pyexn) :
  connect fn fp via vw tn tp h = (h', Raise e) ->
  is_validation_error e = true ->
  h' = h.
Proof.
  rewrite connect_steps. intros E V.
  destruct (check_endpoints h fn fp tn tp) as [[fp' tp']|e0].
  - destruct (check_via fn fp' via vw tn tp' h) as [h1 [vw'|e1]] eqn:C.
    + destruct (check_via_state _ _ _ _ _ _ _ _ _ C) as (Cc & _).
      pose proof (record_connection_spec fn fp' via vw' tn tp' h1) as R.
      destruct (dict_get via (cables h1)) as [cable|].
      * destruct R as (h2 & R & _). rewrite R in E. discriminate.
      * rewrite R in E. injection E as <- <-. discriminate.
    + destruct (check_via_state _ _ _ _ _ _ _ _ _ C) as (_ & S).
      injection E as <- <-. exact (S e1 eq_refl).
  - now injection E as <- <-.
Qed.

Lemma connect_validation_error_keeps_state_witness :
  fst (connect (Some "A") (PyInt 7) "W1" (PyInt 1) (Some "B") (PyInt 1)
               harness_AB) = harness_AB.
Proof.
  apply (connect_validation_error_keeps_state harness_AB _ (Some "A") (PyInt 7)
           "W1" (PyInt 1) (Some "B") (PyInt 1)
           (PyException (PinNotFound "A" (PyInt 7)))).
  - reflexivity.
  - reflexivity.
Defined.

(** ** Pin tokens *)

(** When the endpoint loop raises, so does [connect], and nothing has
    changed. *)
Lemma connect_endpoint_error (h : Harness) (fn : option string) (fp : pyval)
    (via : string) (vw : pyval) (tn : option string) (tp : pyval) (e : pyexn) :
  check_endpoints h fn fp tn tp = Raise e ->
  connect fn fp via vw tn tp h = (h, Raise e).
Proof. intros E. now rewrite connect_steps, E. Qed.

(** C6, as stated, fails: on [X] the token [b] is a label of two positions,
    and [connect] does not report a duplicate label: [b] is also the
    second pin, and the check for an ambiguous reference comes first. *)
Lemma duplicate_label_reported_as_ambiguous :
  duplicate_label (sample_connector "X" [PyStr "a"; PyStr "b"]
                     [PyStr "b"; PyStr "b"]) (PyStr "b")
  /\ connect (Some "X") (PyStr "b") "W1" (PyInt 1) (Some "B") (PyInt 1) harness_XY
     = (harness_XY, Raise (PyException (AmbiguousPin "X" (PyStr "b"))))
  /\ snd (connect (Some "X") (PyStr "b") "W1" (PyInt 1) (Some "B") (PyInt 1)
                  harness_XY)
     <> Raise (PyException (DuplicatePin "X" (PyStr "b"))).
Proof.
  split; [unfold duplicate_label; simpl; lia|].
  split; [reflexivity | discriminate].
Qed.

(** C6, amended. The checks on an endpoint that names a declared connector
    are made in this order, and the first that fails decides the
    exception: an ambiguous reference when the token is a pin and a label
    at different positions; else a duplicate label when the token is the
    label of more than one position; a pin not found when the token is
    neither a pin nor a label. The [from] endpoint is checked first, the
    [to] endpoint once the [from] endpoint has passed. *)
Theorem connect_pin_checks_in_order (h : Harness) (fn : option string)
    (fp : pyval) (via : string) (vw : pyval) (tn : option string) (tp : pyval) :
  (forall n c,
      fn = Some n -> dict_get n (connectors h) = Some c ->
      (ambiguous_pin c fp ->
       connect fn fp via vw tn tp h
       = (h, Raise (PyException (AmbiguousPin n fp))))
      /\ (~ ambiguous_pin c fp -> duplicate_label c fp ->
          connect fn fp via vw tn tp h
          = (h, Raise (PyException (DuplicatePin n fp))))
      /\ (unknown_pin c fp ->
          connect fn fp via vw tn tp h
          = (h, Raise (PyException (PinNotFound n fp)))))
  /\
  (forall n c locals,
      tn = Some n -> dict_get n (connectors h) = Some c ->
      check_endpoint h fn tn fn fp (fp, tp) = OK locals ->
      (ambiguous_pin c tp ->
       connect fn fp via vw tn tp h
       = (h, Raise (PyException (AmbiguousPin n tp))))
      /\ (~ ambiguous_pin c tp -> duplicate_label c tp ->
          connect fn fp via vw tn tp h
          = (h, Raise (PyException (DuplicatePin n tp))))
      /\ (unknown_pin c tp ->
          connect fn fp via vw tn tp h
          = (h, Raise (PyException (PinNotFound n tp))))).
Proof.
  split.
  - intros n c -> Hc. repeat split; intros; apply connect_endpoint_error;
      rewrite check_endpoints_steps.
    + now rewrite (check_endpoint_ambiguous h _ _ n c Hc).
    + now rewrite (check_endpoint_duplicate h _ _ n c Hc).
    + now rewrite (check_endpoint_unknown h _ _ n c Hc).
  - intros n c locals -> Hc F. repeat split; intros; apply connect_endpoint_error;
      rewrite check_endpoints_steps, F.
    + now apply (check_endpoint_ambiguous h _ _ n c Hc).
    + now apply (check_endpoint_duplicate h _ _ n c Hc).
    + now apply (check_endpoint_unknown h _ _ n c Hc).
Qed.

Lemma connect_pin_checks_in_order_witness :
  connect (Some "Y") (PyStr "a") "W1" (PyInt 1) (Some "B") (PyInt 1) harness_XY
  = (harness_XY, Raise (PyException (DuplicatePin "Y" (PyStr "a"))))
  /\
  connect (Some "A") (PyInt 1) "W1" (PyInt 1) (Some "B") (PyStr "x") harness_XY
  = (harness_XY, Raise (PyException (PinNotFound "B" (PyStr "x")))).
Proof.
  split.
  - apply (proj1 (connect_pin_checks_in_order harness_XY (Some "Y") (PyStr "a")
                    "W1" (PyInt 1) (Some "B") (PyInt 1))
             "Y" (sample_connector "Y" [PyStr "a"; PyStr "b"]
                    [PyStr "a"; PyStr "a"]) eq_refl eq_refl).
    + intros (_ & _ & D). apply D. reflexivity.
    + unfold duplicate_label. simpl. lia.
  - apply (proj2 (connect_pin_checks_in_order harness_XY (Some "A") (PyInt 1)
                    "W1" (PyInt 1) (Some "B") (PyStr "x"))
             "B" (sample_connector "B" [PyInt 1; PyInt 2] [])
             (PyInt 1, PyStr "x") eq_refl eq_refl eq_refl).
    split; reflexivity.
Defined.


(** The loop on two endpoints of one connector: the label [gnd] given for
    the [to] endpoint is resolved to pin 2, and this also overwrites the
    [from] pin, given as 1. *)
Lemma same_connector_overwrites_other_pin :
  check_endpoints harness_AB (Some "A") (PyInt 1) (Some "A") (PyStr "gnd")
  = OK (PyInt 2, PyInt 2).
Proof. reflexivity. Qed.



(* ===================================================================== *)
(** * Properties of [create_graph] *)
(* ===================================================================== *)

(** ** Loops that emit *)

Lemma emit_all_raises {A B} (emit : A -> result (list B)) (e0 : pyexn)
    (l : list A) (x : A) :
  (forall y e, emit y = Raise e -> e = e0) ->
  In x l -> emit x = Raise e0 ->
  emit_all emit l = Raise e0.
Proof.
  intros Only. induction l as [|y l IH]; simpl; [contradiction|].
  intros [-> | Hin] Ex.
  - now rewrite Ex.
  - destruct (emit y) as [out|e] eqn:Ey; simpl.
    + now rewrite (IH Hin Ex).
    + now rewrite (Only y e Ey).
Qed.

Lemma emit_all_In {A B} (emit : A -> result (list B)) (l : list A)
    (out : list B) (x : A) :
  emit_all emit l = OK out -> In x l ->
  exists o, emit x = OK o /\ incl o out.
Proof.
  revert out. induction l as [|y l IH]; simpl; intros out E Hin; [contradiction|].
  destruct (emit y) as [oy|] eqn:Ey; simpl in E; [|discriminate].
  destruct (emit_all emit l) as [rest|] eqn:Er; simpl in E; [|discriminate].
  injection E as <-. destruct Hin as [-> | Hin].
  - exists oy. split; [exact Ey|]. apply incl_appl, incl_refl.
  - destruct (IH rest eq_refl Hin) as (o & Eo & I).
    exists o. split; [exact Eo|]. apply incl_appr, I.
Qed.

(** ** Pass 1 leaves the cables alone *)






Section RenderingFacts.
Variable get_color_hex : option string -> bool -> list string.
Variable default_color : string.

(** [create_graph] as the steps it is made of. *)
Lemma create_graph_steps (h : Harness) :
  create_graph get_color_hex default_color h =
    match prepare_ports h with
    | (h1, Raise e) => (h1, Raise e)
    | (h1, OK _) =>
        match emit_all connector_stmts (map snd (connectors h1)) with
        | Raise e => (h1, Raise e)
        | OK cs =>
            match cables_stmts get_color_hex default_color (harness_pad h1) h1 (map snd (cables h1)) None with
            | Raise e => (h1, Raise e)
            | OK ws =>
                match mates_stmts h1 (mates_pin h1) None with
                | Raise e => (h1, Raise e)
                | OK ms => (h1, OK (graph_defaults ++ cs ++ ws ++ ms))
                end
            end
        end
    end.
Proof.
  unfold create_graph. unfold_m.
  destruct (prepare_ports h) as [h1 [[]|e]]; [|reflexivity].
  destruct (emit_all connector_stmts (map snd (connectors h1))); [|reflexivity].
  destruct (cables_stmts get_color_hex default_color _ _ _ _); [|reflexivity].
  destruct (mates_stmts h1 (mates_pin h1) None); reflexivity.
Qed.


Lemma graph_parts_in (x : dot_stmt) (cs ws ms : list dot_stmt) :
  In x cs \/ In x ws \/ In x ms -> In x (graph_defaults ++ cs ++ ws ++ ms).
Proof. intros H. apply in_or_app. right. rewrite !in_app_iff. exact H. Qed.


(** The only exception of the loop over the connectors is the one for a
    loop without a side. *)
Lemma connector_stmts_raises (c : Connector) (e : pyexn) :
  connector_stmts c = Raise e -> e = PyException NoSideForLoops.
Proof.
  unfold connector_stmts, loop_stmts.
  destruct (Nat.ltb 0 (List.length (loops c))); simpl; [|discriminate].
  destruct (ports_left c); simpl; [discriminate|].
  destruct (ports_right c); simpl; [discriminate|]. now intros [= <-].
Qed.

Lemma loops_nonempty (c : Connector) :
  loops c <> [] -> Nat.ltb 0 (List.length (loops c)) = true.
Proof. destruct (loops c); [contradiction | reflexivity]. Qed.


(** The loop over the connectors returns when every connector that has
    loops has a side for them. *)
Lemma connectors_with_sides (l : list Connector) :
  (forall c, In c l -> loops c <> [] ->
             ports_left c = true \/ ports_right c = true) ->
  exists cs, emit_all connector_stmts l = OK cs.
Proof.
  induction l as [|c l IH]; intros Sd; simpl.
  - now exists [].
  - destruct IH as (rest & E); [intros c' H; apply Sd; now right|].
    assert (S : exists o, connector_stmts c = OK o).
    { unfold connector_stmts, loop_stmts.
      destruct (loops c) as [|lp lps] eqn:L; simpl; [now eexists|].
      destruct (Sd c (or_introl eq_refl)) as [Pl | Pr];
        [rewrite L; discriminate | rewrite Pl; simpl; now eexists |].
      rewrite Pr. destruct (ports_left c); simpl; now eexists. }
    destruct S as (o & S). rewrite S, E. simpl. now eexists.
Qed.



(** The loops of a connector, once the statements emitted for them are
    known: the loop over the connectors returns, with the edges of these
    loops among its statements, when no connector lacks a side for its
    loops; and these edges are in every graph that is returned. *)
Lemma loop_edges_reach_the_graph (h h1 : Harness) (c : Connector)
    (loop_side loop_dir : string) :
  prepare_ports h = (h1, OK tt) ->
  In c (map snd (connectors h1)) ->
  loop_stmts c
  = OK (DotAttr "edge" [("color", "#000000:#ffffff:#000000")]
        :: map (loop_edge c loop_side loop_dir) (loops c)) ->
  (forall h' g,
      create_graph get_color_hex default_color h = (h', OK g) ->
      forall loop, In loop (loops c) -> In (loop_edge c loop_side loop_dir loop) g)
  /\ ((forall c', In c' (map snd (connectors h1)) -> loops c' <> [] ->
                  ports_left c' = true \/ ports_right c' = true) ->
      exists cs,
        emit_all connector_stmts (map snd (connectors h1)) = OK cs
        /\ forall loop,
             In loop (loops c) -> In (loop_edge c loop_side loop_dir loop) cs).
Proof.
  intros P Hin S.
  assert (K : forall cs loop,
             emit_all connector_stmts (map snd (connectors h1)) = OK cs ->
             In loop (loops c) ->
             In (loop_edge c loop_side loop_dir loop) cs).
  { intros cs loop Ec Hl.
    destruct (emit_all_In _ _ _ c Ec Hin) as (o & Eo & I).
    unfold connector_stmts in Eo. rewrite S in Eo. simpl in Eo. injection Eo as <-.
    apply I. right. right. apply in_map_iff. exists loop.
    split; [reflexivity | exact Hl]. }
  split.
  - intros h' g G loop Hl. rewrite create_graph_steps, P in G.
    destruct (emit_all connector_stmts (map snd (connectors h1))) as [cs|] eqn:Ec;
      [|discriminate].
    destruct (cables_stmts _ _ _ _ _ _) as [ws|]; [|discriminate].
    destruct (mates_stmts h1 (mates_pin h1) None) as [ms|]; [|discriminate].
    injection G as <- <-. apply graph_parts_in. left. now apply K.
  - intros Sd. destruct (connectors_with_sides _ Sd) as (cs & Ec).
    exists cs. split; [exact Ec|]. intros loop Hl. now apply K.
Qed.

(** ** Loops *)

(** C4. When, after the ports have been prepared, a connector with loops
    has neither [ports_left] nor [ports_right] set, [create_graph] raises
    the exception [No side for loops]. *)
Theorem loops_without_port_side_raise (h h1 : Harness) (c : Connector) :
  prepare_ports h = (h1, OK tt) ->
  In c (map snd (connectors h1)) ->
  loops c <> [] ->
  ports_left c = false ->
  ports_right c = false ->
  create_graph get_color_hex default_color h
  = (h1, Raise (PyException NoSideForLoops)).
Proof.
  intros P Hin L Pl Pr. rewrite create_graph_steps, P.
  rewrite (emit_all_raises connector_stmts (PyException NoSideForLoops)
             (map snd (connectors h1)) c connector_stmts_raises Hin);
    [reflexivity|].
  unfold connector_stmts, loop_stmts.
  now rewrite (loops_nonempty c L), Pl, Pr.
Qed.

(** C9. When, after the ports have been prepared, a connector with loops
    has both [ports_left] and [ports_right] set, its loops are drawn on
    the left: the statements emitted for them are the edge colour and,
    for each loop, the edge between the ports [p<pin>l] with compass
    point [w]; these edges are in every graph that [create_graph]
    returns; and the loop over the connectors does emit them, as it
    returns when no connector lacks a side for its loops. *)
Theorem loops_drawn_on_left_side (h h1 : Harness) (c : Connector) :
  prepare_ports h = (h1, OK tt) ->
  In c (map snd (connectors h1)) ->
  loops c <> [] ->
  ports_left c = true ->
  ports_right c = true ->
  loop_stmts c
  = OK (DotAttr "edge" [("color", "#000000:#ffffff:#000000")]
        :: map (fun loop =>
                  DotEdge
                    (connector_name c ++ ":p" ++ py_str (fst loop) ++ "l:w")%string
                    (connector_name c ++ ":p" ++ py_str (snd loop) ++ "l:w")%string)
               (loops c))
  /\ (forall h' g,
         create_graph get_color_hex default_color h = (h', OK g) ->
         forall loop,
           In loop (loops c) ->
           In (DotEdge
                 (connector_name c ++ ":p" ++ py_str (fst loop) ++ "l:w")%string
                 (connector_name c ++ ":p" ++ py_str (snd loop) ++ "l:w")%string)
              g)
  /\ ((forall c', In c' (map snd (connectors h1)) -> loops c' <> [] ->
                  ports_left c' = true \/ ports_right c' = true) ->
      exists cs,
        emit_all connector_stmts (map snd (connectors h1)) = OK cs
        /\ forall loop,
             In loop (loops c) ->
             In (DotEdge
                   (connector_name c ++ ":p" ++ py_str (fst loop) ++ "l:w")%string
                   (connector_name c ++ ":p" ++ py_str (snd loop) ++ "l:w")%string)
                cs).
Proof.
  intros P Hin L Pl Pr.
  assert (S : loop_stmts c
              = OK (DotAttr "edge" [("color", "#000000:#ffffff:#000000")]
                    :: map (loop_edge c "l" "w") (loops c))).
  { unfold loop_stmts. rewrite (loops_nonempty c L), Pl. reflexivity. }
  split; [exact S|].
  exact (loop_edges_reach_the_graph h h1 c "l" "w" P Hin S).
Qed.

(** ** Padding *)











(** ** The shield token *)


End RenderingFacts.

(** ** The properties on sample harnesses *)

Lemma loops_without_port_side_raise_witness :
  create_graph sample_color_hex "#ffffff" harness_L
  = (harness_L, Raise (PyException NoSideForLoops)).
Proof.
  apply (loops_without_port_side_raise sample_color_hex "#ffffff"
           harness_L harness_L connector_L).
  - reflexivity.
  - left. reflexivity.
  - discriminate.
  - reflexivity.
  - reflexivity.
Defined.

Lemma loops_drawn_on_left_side_witness :
  exists g,
    snd (create_graph sample_color_hex "#ffffff" harness_ALB) = OK g
    /\ In (DotEdge "L:p1l:w" "L:p2l:w") g.
Proof.
  eexists. split; [reflexivity|].
  exact (proj1 (proj2 (loops_drawn_on_left_side sample_color_hex "#ffffff"
                         harness_ALB (fst (prepare_ports harness_ALB)) _
                         eq_refl
                         ltac:(right; right; left; reflexivity)
                         ltac:(discriminate) eq_refl eq_refl))
           _ _ eq_refl (PyInt 1, PyInt 2) (or_introl eq_refl)).
Defined.





(** What lines 80-94 lack shows on a token that names no wire at all:
    wire 7 of the two wires of [W1] is recorded as well, and then
    [create_graph] raises [IndexError] at line 311. *)
Lemma wire_number_out_of_range_is_recorded :
  snd (connect (Some "A") (PyInt 1) "W1" (PyInt 7) (Some "B") (PyInt 1)
               harness_AB) = OK tt
  /\ snd (create_graph sample_color_hex "#ffffff"
            (fst (connect (Some "A") (PyInt 1) "W1" (PyInt 7) (Some "B") (PyInt 1)
                          harness_AB)))
     = Raise IndexError.
Proof. split; reflexivity. Qed.

(* ===================================================================== *)
(** * Properties of [bom] *)
(* ===================================================================== *)

(** C8, as stated, fails: the bill of materials of an empty harness is the
    empty list, which [bom] takes for a cache not yet filled; after a
    connector has been added, the next call computes again and returns
    another list. *)
Lemma empty_bom_is_recomputed :
  bom sample_generate_bom Harness_init = (Harness_init, OK [])
  /\ snd (run (bom sample_generate_bom ;;
               add_connector "A" (sample_connector "A" [PyInt 1] []) ;;
               bom sample_generate_bom) Harness_init)
     = OK [[("designators", PyStr "A"); ("qty", PyInt 1)]].
Proof. split; reflexivity. Qed.

Section BomFacts.
Variable generate_bom : Harness -> list bom_entry.

(** C8, amended. A call of [bom] on a filled cache returns the cached
    list and computes nothing; on an empty cache it computes the list,
    stores it and returns it. So from the first call that yields a list
    with a row in it, every later call returns that same list, whatever
    else of the harness has changed meanwhile. *)
Theorem bom_cached_when_not_empty (h : Harness) :
  (_bom h <> [] -> bom generate_bom h = (h, OK (_bom h)))
  /\ (_bom h = [] ->
      bom generate_bom h = (set_bom (generate_bom h) h, OK (generate_bom h)))
  /\ (forall h1 b,
         bom generate_bom h = (h1, OK b) -> b <> [] ->
         _bom h1 = b
         /\ forall h2, _bom h2 = _bom h1 -> bom generate_bom h2 = (h2, OK b)).
Proof.
  assert (F : forall k, _bom k <> [] -> bom generate_bom k = (k, OK (_bom k))).
  { intros k N. unfold bom. unfold_m.
    destruct (_bom k) eqn:Ek; [contradiction|]. simpl. now rewrite Ek. }
  assert (E : forall k, _bom k = [] ->
                        bom generate_bom k
                        = (set_bom (generate_bom k) k, OK (generate_bom k))).
  { intros k N. unfold bom. unfold_m. rewrite N. reflexivity. }
  split; [apply F|]. split; [apply E|].
  intros h1 b B N.
  assert (C : _bom h1 = b).
  { destruct (_bom h) eqn:Eb.
    - rewrite (E h Eb) in B. injection B as <- <-. reflexivity.
    - rewrite F in B by (rewrite Eb; discriminate).
      injection B as <- <-. reflexivity. }
  split; [exact C|]. intros h2 S. rewrite F by (rewrite S, C; exact N).
  now rewrite S, C.
Qed.
End BomFacts.

Lemma bom_cached_when_not_empty_witness :
  bom sample_generate_bom
      (fst (run (bom sample_generate_bom ;;
                 add_connector "C" (sample_connector "C" [PyInt 1] []))
                harness_AB))
  = (fst (run (bom sample_generate_bom ;;
               add_connector "C" (sample_connector "C" [PyInt 1] []))
              harness_AB),
     OK (sample_generate_bom harness_AB)).
Proof.
  apply (proj2 (proj2 (proj2 (bom_cached_when_not_empty sample_generate_bom
                                harness_AB))
                  (set_bom (sample_generate_bom harness_AB) harness_AB)
                  (sample_generate_bom harness_AB) eq_refl
                  ltac:(discriminate))).
  reflexivity.
Defined.

(* ===================================================================== *)
(** * Further properties of [connect] *)
(* ===================================================================== *)

Lemma activate_endpoint_run (name : option string) (pin : pyval) (h : Harness) :
  activate_endpoint name pin h = (activated name pin h, OK tt).
Proof.
  unfold activate_endpoint, activated, update_connector, get_connector,
    find_connector, has_connector, dict_mem. unfold_m.
  destruct name as [n|]; [|reflexivity].
  destruct (dict_get n (connectors h)) as [c|] eqn:E; [|reflexivity].
  simpl. rewrite E. reflexivity.
Qed.

Lemma record_connection_run (fn : option string) (fp : pyval) (via : string)
    (vw : pyval) (tn : option string) (tp : pyval) (cable : Cable) (h : Harness) :
  dict_get via (cables h) = Some cable ->
  record_connection fn fp via vw tn tp h = (recorded fn fp via vw tn tp cable h, OK tt).
Proof.
  intros G. unfold record_connection, get_cable, recorded. unfold_m. rewrite G.
  now rewrite !activate_endpoint_run.
Qed.

Lemma activated_cables (name : option string) (pin : pyval) (h : Harness) :
  cables (activated name pin h) = cables h.
Proof.
  unfold activated. destruct name as [n|]; [|reflexivity].
  destruct (dict_get n (connectors h)); reflexivity.
Qed.

Lemma activated_undeclared (name : option string) (pin : pyval) (h : Harness) :
  has_connector name h = false -> activated name pin h = h.
Proof.
  unfold has_connector, activated, dict_mem. destruct name as [n|]; [|reflexivity].
  destruct (dict_get n (connectors h)); [discriminate | reflexivity].
Qed.

(** An [int] is never equal to a colour, which is a string. *)
Lemma py_in_int_strings (z : Z) (l : list string) :
  py_in (PyInt z) (map PyStr l) = false.
Proof. induction l as [|s l IH]; simpl; [reflexivity | exact IH]. Qed.

(** When the name is not that of a declared connector, the body of the
    endpoint loop does nothing. *)
Lemma check_endpoint_undeclared (h : Harness) (fn tn name : option string)
    (pin : pyval) (locals : pyval * pyval) :
  has_connector name h = false ->
  check_endpoint h fn tn name pin locals = OK locals.
Proof.
  unfold has_connector, dict_mem, check_endpoint. destruct locals as [a b].
  destruct name as [n|]; [|reflexivity].
  destruct (dict_get n (connectors h)); [discriminate | reflexivity].
Qed.

(** X1. Endpoints whose names are not declared connectors are not checked at
    all, and an [int] wire token that is not one of the wire labels of the
    cable is not checked against the number of wires: on a declared cable
    the call returns, and all it has done is to put the record, with the
    tokens as given, at the end of the connections of that cable. *)
Theorem connect_undeclared_endpoints_recorded_as_given (h : Harness)
    (fn : option string) (fp : pyval) (via : string) (z : Z)
    (tn : option string) (tp : pyval) (cable : Cable) :
  has_connector fn h = false ->
  has_connector tn h = false ->
  ~ In via arrows ->
  dict_get via (cables h) = Some cable ->
  py_in (PyInt z) (wirelabels cable) = false ->
  connect fn fp via (PyInt z) tn tp h
  = (set_cables
       (dict_set via (Cable_connect fn fp (PyInt z) tn tp cable) (cables h)) h,
     OK tt).
Proof.
  intros Hf Ht NA G Il. rewrite connect_steps, check_endpoints_steps.
  rewrite (check_endpoint_undeclared h fn tn fn fp (fp, tp) Hf).
  rewrite (check_endpoint_undeclared h fn tn tn tp (fp, tp) Ht).
  rewrite (check_via_no_arrow _ _ _ _ _ _ _ (not_In_py_in _ _ NA)), G.
  unfold resolve_wire. rewrite py_in_int_strings, Il. simpl.
  rewrite (record_connection_run _ _ _ _ _ _ cable h G). unfold recorded.
  set (h1 := set_cables _ h).
  assert (Hf1 : has_connector fn h1 = false) by exact Hf.
  assert (Ht1 : has_connector tn h1 = false) by exact Ht.
  now rewrite (activated_undeclared fn fp h1 Hf1), (activated_undeclared tn tp h1 Ht1).
Qed.

(** ** Wire tokens *)

Lemma py_count_one_in {A} `{PyEq A} (x : A) (l : list A) :
  py_count x l = 1 -> py_in x l = true.
Proof. intros C. apply py_count_pos_in. lia. Qed.



(** A wire label that is no colour and that the cable has once resolves to
    its position, counted from 1. *)
Lemma resolve_wire_label (via : string) (cable : Cable) (token : pyval) :
  unique_wirelabel cable token ->
  exists i,
    resolve_wire via cable token = OK (PyInt (Z.of_nat i + 1))
    /\ nth_error (wirelabels cable) i = Some token.
Proof.
  intros (NC & C). unfold resolve_wire.
  pose proof (py_count_one_in _ _ C) as Il. rewrite NC, Il, C.
  destruct (py_index_in _ _ Il) as (i & Ei & Hn).
  exists i. simpl. rewrite Ei. now split.
Qed.



(** X3. A wire label that is no colour and names one wire of the cable is
    turned into the number of that wire, counted from 1. *)
Theorem connect_wirelabel_names_its_wire (h : Harness) (fn : option string)
    (fp : pyval) (via : string) (token : pyval) (tn : option string)
    (tp : pyval) (cable : Cable) (fp' tp' : pyval) :
  ~ In via arrows ->
  dict_get via (cables h) = Some cable ->
  check_endpoints h fn fp tn tp = OK (fp', tp') ->
  unique_wirelabel cable token ->
  exists i,
    nth_error (wirelabels cable) i = Some token
    /\ connect fn fp via token tn tp h
       = (recorded fn fp' via (PyInt (Z.of_nat i + 1)) tn tp' cable h, OK tt).
Proof.
  intros NA G V U.
  destruct (resolve_wire_label via cable token U) as (i & R & Hn).
  exists i. split; [exact Hn|].
  rewrite connect_steps, V.
  rewrite (check_via_no_arrow _ _ _ _ _ _ _ (not_In_py_in _ _ NA)), G, R.
  apply record_connection_run, G.
Qed.

(** X4. The wire token is checked like a pin token. A token that is a
    colour and a wire label at different positions is an ambiguous
    reference; else a token that is a colour of more than one wire, or no
    colour and the label of more than one wire, is a duplicate. Either
    way [connect] raises and the harness is as before. *)
Theorem connect_wire_checks_in_order (h : Harness) (fn : option string)
    (fp : pyval) (via : string) (vw : pyval) (tn : option string)
    (tp : pyval) (cable : Cable) (fp' tp' : pyval) :
  ~ In via arrows ->
  dict_get via (cables h) = Some cable ->
  check_endpoints h fn fp tn tp = OK (fp', tp') ->
  let cs := map PyStr (colors cable) in
  let ls := wirelabels cable in
  (py_in vw cs = true -> py_in vw ls = true ->
   py_index vw cs <> py_index vw ls ->
   connect fn fp via vw tn tp h
   = (h, Raise (PyException (AmbiguousWire via vw))))
  /\ ((py_in vw ls = false \/ py_index vw cs = py_index vw ls) ->
      1 < py_count vw cs ->
      connect fn fp via vw tn tp h
      = (h, Raise (PyException (DuplicateWire via vw))))
  /\ (py_in vw cs = false -> 1 < py_count vw ls ->
      connect fn fp via vw tn tp h
      = (h, Raise (PyException (DuplicateWire via vw)))).
Proof.
  intros NA G V cs ls.
  assert (S : connect fn fp via vw tn tp h
              = match resolve_wire via cable vw with
                | OK vw' => record_connection fn fp' via vw' tn tp' h
                | Raise e => (h, Raise e)
                end).
  { rewrite connect_steps, V.
    rewrite (check_via_no_arrow _ _ _ _ _ _ _ (not_In_py_in _ _ NA)), G.
    destruct (resolve_wire via cable vw); reflexivity. }
  rewrite S. unfold resolve_wire. fold cs ls. repeat split.
  - intros Ic Il D. rewrite Ic, Il. simpl.
    now rewrite (proj2 (option_eqb_neq _ _) D).
  - intros L C.
    assert (Ic : py_in vw cs = true) by (apply py_count_pos_in; lia).
    rewrite Ic, (proj2 (Nat.ltb_lt _ _) C).
    destruct L as [L | L].
    + now rewrite L.
    + rewrite L. simpl. rewrite (proj2 (option_eqb_eq _ _) eq_refl).
      destruct (py_in vw ls); reflexivity.
  - intros Ic C.
    assert (Il : py_in vw ls = true) by (apply py_count_pos_in; lia).
    now rewrite Ic, Il, (proj2 (Nat.ltb_lt _ _) C).
Qed.

(** ** Labels and pins *)

Lemma nth_error_py_in {A} `{PyEq A} (l : list A) (i : nat) (x : A) :
  nth_error l i = Some x -> py_in x l = true.
Proof. intros E. apply py_in_In. exact (nth_error_In l i E). Qed.

(** A label that names one pin goes through the body of the loop as that
    pin, which is assigned to the local of the endpoint. *)
Lemma check_endpoint_label (h : Harness) (fn tn : option string) (n : string)
    (c : Connector) (label p a b : pyval) :
  dict_get n (connectors h) = Some c ->
  labels_pin c label p ->
  check_endpoint h fn tn (Some n) label (a, b)
  = OK (if py_eqb (Some n) fn then p else a, if py_eqb (Some n) tn then p else b).
Proof.
  intros Hc (Ip & Cn & i & Ei & Hn). unfold check_endpoint.
  rewrite Hc, Ip, (py_count_one_in _ _ Cn), Cn, Ei, Hn. simpl.
  now rewrite (nth_error_py_in _ _ _ Hn).
Qed.

(** What the body of the loop does for one endpoint does not depend on the
    local of the other endpoint, which it hands on. *)
Lemma check_endpoint_hands_on_to (h : Harness) (fn tn name : option string)
    (pin a b b0 : pyval) :
  name <> tn ->
  check_endpoint h fn tn name pin (a, b)
  = match check_endpoint h fn tn name pin (a, b0) with
    | OK (a', _) => OK (a', b)
    | Raise e => Raise e
    end.
Proof.
  intros N. unfold check_endpoint.
  destruct name as [n|]; [|reflexivity].
  destruct (dict_get n (connectors h)) as [c|]; [|reflexivity].
  assert (E2 : py_eqb (Some n) tn = false) by (apply option_eqb_neq; exact N).
  rewrite E2.
  destruct (py_eqb (Some n) fn);
    repeat (simpl;
            match goal with
            | |- context [if ?b then _ else _] => destruct b
            | |- context [match ?x with Some _ => _ | None => _ end] => destruct x
            end);
    reflexivity.
Qed.

(** X5. A label that names one pin of a declared connector stands for that
    pin, provided that the pin ID is a plain one (as a label it is absent,
    or it is the label of that very pin and of no other, so that the call
    with the pin ID passes the checks too): when the two endpoints name
    different connectors, the call with the label does exactly what the
    call with the pin does, on the state and in what it raises. *)
Theorem connect_by_label_as_by_pin (h : Harness) (fn : option string)
    (fp : pyval) (via : string) (vw : pyval) (tn : option string) (tp : pyval) :
  fn <> tn ->
  (forall n c p,
      fn = Some n -> dict_get n (connectors h) = Some c ->
      labels_pin c fp p -> plain_pin_id c p ->
      connect fn fp via vw tn tp h = connect fn p via vw tn tp h)
  /\
  (forall n c p,
      tn = Some n -> dict_get n (connectors h) = Some c ->
      labels_pin c tp p -> plain_pin_id c p ->
      connect fn fp via vw tn tp h = connect fn fp via vw tn p h).
Proof.
  intros D. split.
  - intros n c p -> Hc L P. rewrite !connect_steps, !check_endpoints_steps.
    rewrite (check_endpoint_label h (Some n) tn n c fp p fp tp Hc L).
    rewrite (py_eqb_refl (Some n)).
    assert (E : py_eqb (Some n) tn = false) by (apply option_eqb_neq; exact D).
    rewrite E.
    destruct (check_endpoint_plain h (Some n) tn n c Hc p p tp P)
      as (a & b & F & [-> | [-> _]] & [-> | [_ T]]);
      try (exfalso; apply D; now rewrite T); now rewrite F.
  - intros n c p -> Hc L P. rewrite !connect_steps, !check_endpoints_steps.
    rewrite (check_endpoint_hands_on_to h fn (Some n) fn fp fp tp p D).
    destruct (check_endpoint h fn (Some n) fn fp (fp, p)) as [[a b]|e] eqn:F0;
      [|reflexivity].
    destruct (check_endpoint_other_local _ _ _ _ _ _ _ F0) as (_ & Kb).
    simpl in Kb. specialize (Kb D). subst b.
    rewrite (check_endpoint_label h fn (Some n) n c tp p a tp Hc L).
    rewrite (py_eqb_refl (Some n)).
    assert (E : py_eqb (Some n) fn = false)
      by (apply option_eqb_neq; intros T; apply D; now rewrite T).
    rewrite E.
    destruct (check_endpoint_plain h fn (Some n) n c Hc p a p P)
      as (a' & b' & F & [-> | [_ T]] & Hb);
      [|exfalso; apply D; now rewrite T].
    rewrite F. now destruct Hb as [-> | [-> _]].
Qed.

(** ** What [connect] changes and what it keeps *)

Lemma set_mates_same (h : Harness) : set_mates (mates h) h = h.
Proof. now destruct h. Qed.

(** Lines 74-94 change nothing but, possibly, the attribute [mates]. *)
Lemma check_via_only_mates (fn : option string) (fp : pyval) (via : string)
    (vw : pyval) (tn : option string) (tp : pyval) (h h1 : Harness)
    (r : result pyval) :
  check_via fn fp via vw tn tp h = (h1, r) -> exists m, h1 = set_mates m h.
Proof.
  intros E. destruct (py_in via arrows) eqn:A.
  - pose proof (check_via_arrow fn fp via vw tn tp h A) as S.
    destruct (mates h) as [m|] eqn:Em.
    + destruct S as (m' & S). rewrite S in E. injection E as <- <-.
      now exists (Some m').
    + rewrite S in E. injection E as <- <-. exists None.
      rewrite <- Em. symmetry. apply set_mates_same.
  - rewrite (check_via_no_arrow fn fp via vw tn tp h A) in E.
    exists (mates h). rewrite set_mates_same.
    destruct (dict_get via (cables h)); now injection E as <- <-.
Qed.




(** The connector [n] after the activation of a pin on [name]. *)
Lemma activated_get (name : option string) (pin : pyval) (h : Harness)
    (n : string) :
  dict_get n (connectors (activated name pin h))
  = match dict_get n (connectors h) with
    | Some c => Some (if py_eqb name (Some n) then activate_pin pin c else c)
    | None => None
    end.
Proof.
  unfold activated. destruct name as [m|]; simpl.
  - destruct (String.eqb m n) eqn:E.
    + apply String.eqb_eq in E. subst m.
      destruct (dict_get n (connectors h)) as [c|] eqn:G; simpl.
      * apply dict_get_set_same.
      * now rewrite G.
    + apply String.eqb_neq in E.
      destruct (dict_get m (connectors h)) as [c|] eqn:G; simpl.
      * rewrite (dict_get_set_other m n _ _ (fun T => E (eq_sym T))).
        destruct (dict_get n (connectors h)); reflexivity.
      * destruct (dict_get n (connectors h)); reflexivity.
  - destruct (dict_get n (connectors h)); reflexivity.
Qed.

Lemma activate_pin_visible (p : pyval) (c : Connector) :
  dict_get p (visible_pins (activate_pin p c)) = Some true.
Proof. simpl. apply dict_get_set_same. Qed.

Lemma activate_pin_keeps_visible (p q : pyval) (c : Connector) :
  dict_get q (visible_pins c) = Some true ->
  dict_get q (visible_pins (activate_pin p c)) = Some true.
Proof.
  intros G. simpl. destruct (pyval_eqb q p) eqn:E.
  - apply pyval_eqb_eq in E. subst q. apply dict_get_set_same.
  - rewrite dict_get_set_other; [exact G|].
    intros T. subst q. rewrite (proj2 (pyval_eqb_eq p p) eq_refl) in E.
    discriminate.
Qed.

(** The state a call that returns has left. *)
Lemma connect_returns_state (h h' : Harness) (fn : option string) (fp : pyval)
    (via : string) (vw : pyval) (tn : option string) (tp : pyval) :
  connect fn fp via vw tn tp h = (h', OK tt) ->
  exists fp' tp' vw' cable m,
    check_endpoints h fn fp tn tp = OK (fp', tp')
    /\ dict_get via (cables h) = Some cable
    /\ h' = recorded fn fp' via vw' tn tp' cable (set_mates m h).
Proof.
  rewrite connect_steps.
  destruct (check_endpoints h fn fp tn tp) as [[fp' tp']|e]; [|discriminate].
  destruct (check_via fn fp' via vw tn tp' h) as [h1 [vw'|e]] eqn:V; [|discriminate].
  destruct (check_via_only_mates _ _ _ _ _ _ _ _ _ V) as (m & ->).
  pose proof (record_connection_spec fn fp' via vw' tn tp' (set_mates m h)) as R.
  simpl in R. destruct (dict_get via (cables h)) as [cable|] eqn:G.
  - intros E. exists fp', tp', vw', cable, m. repeat split.
    rewrite (record_connection_run fn fp' via vw' tn tp' cable (set_mates m h) G) in E.
    now injection E as <-.
  - rewrite R. discriminate.
Qed.

(** X6. A call that returns has activated the resolved pin of each endpoint
    that names a declared connector: [visible_pins[pin]] is [True] on that
    connector afterwards. *)
Theorem connect_activates_resolved_pins (h h' : Harness) (fn : option string)
    (fp : pyval) (via : string) (vw : pyval) (tn : option string) (tp : pyval) :
  connect fn fp via vw tn tp h = (h', OK tt) ->
  exists fp' tp',
    check_endpoints h fn fp tn tp = OK (fp', tp')
    /\ (forall n c, fn = Some n -> dict_get n (connectors h) = Some c ->
                    exists c', dict_get n (connectors h') = Some c'
                               /\ dict_get fp' (visible_pins c') = Some true)
    /\ (forall n c, tn = Some n -> dict_get n (connectors h) = Some c ->
                    exists c', dict_get n (connectors h') = Some c'
                               /\ dict_get tp' (visible_pins c') = Some true).
Proof.
  intros E.
  destruct (connect_returns_state _ _ _ _ _ _ _ _ E)
    as (fp' & tp' & vw' & cable & m & V & _ & ->).
  exists fp', tp'. split; [exact V|]. unfold recorded.
  set (h0 := set_cables _ (set_mates m h)).
  assert (C0 : connectors h0 = connectors h) by reflexivity.
  split; intros n c -> G.
  - rewrite !activated_get, C0, G. rewrite (py_eqb_refl (Some n)).
    eexists. split; [reflexivity|].
    destruct (py_eqb tn (Some n)).
    + apply activate_pin_keeps_visible, activate_pin_visible.
    + apply activate_pin_visible.
  - rewrite !activated_get, C0, G. rewrite (py_eqb_refl (Some n)).
    eexists. split; [reflexivity|]. apply activate_pin_visible.
Qed.

Lemma activated_fields (name : option string) (pin : pyval) (h : Harness) :
  cables (activated name pin h) = cables h
  /\ mates_pin (activated name pin h) = mates_pin h
  /\ mates_component (activated name pin h) = mates_component h
  /\ _bom (activated name pin h) = _bom h
  /\ additional_bom_items (activated name pin h) = additional_bom_items h
  /\ mates (activated name pin h) = mates h.
Proof.
  unfold activated. destruct name as [n|]; [|now repeat split].
  destruct (dict_get n (connectors h)); now repeat split.
Qed.


(** ** Arrows, once the attribute [mates] is there *)

Lemma arrows_have_dash_or_equals (via : string) :
  In via arrows ->
  str_contains "-" via = true
  \/ (str_contains "-" via = false /\ str_contains "=" via = true).
Proof.
  simpl. intros [<- | [<- | [<- | [<- | [<- | [<- | []]]]]]]; simpl; auto.
Qed.

(** X8. On a harness that has the attribute [mates] and no cable named like
    the arrow, a call with an arrow and valid endpoints raises [KeyError]
    and yet leaves the state changed: the arrow is stored in [mates], under
    the two names and the two resolved pins for an arrow with a dash, under
    the two names alone for an arrow with an equals sign. *)
Theorem connect_arrow_stores_mate_then_raises (h : Harness)
    (fn : option string) (fp : pyval) (via : string) (vw : pyval)
    (tn : option string) (tp : pyval) (m : dict mate_key string)
    (fp' tp' : pyval) :
  In via arrows ->
  mates h = Some m ->
  dict_get via (cables h) = None ->
  check_endpoints h fn fp tn tp = OK (fp', tp') ->
  connect fn fp via vw tn tp h
  = (set_mates (Some (dict_set (arrow_key via fn fp' tn tp') via m)) h,
     Raise (KeyError (PyStr via))).
Proof.
  intros A Em NC V. rewrite connect_steps, V.
  assert (C : check_via fn fp' via vw tn tp' h
              = (set_mates (Some (dict_set (arrow_key via fn fp' tn tp') via m)) h,
                 OK vw)).
  { unfold check_via, record_mate, get_mates, arrow_key. unfold_m.
    rewrite (proj2 (py_in_In via arrows) A).
    destruct (arrows_have_dash_or_equals via A) as [D | [D Q]]; rewrite D.
    - rewrite Em. reflexivity.
    - rewrite Q, Em. reflexivity. }
  rewrite C.
  pose proof (record_connection_spec fn fp' via vw tn tp'
                (set_mates (Some (dict_set (arrow_key via fn fp' tn tp') via m)) h)) as R.
  simpl in R. rewrite NC in R. exact R.
Qed.

(* ===================================================================== *)
(** * Further properties of [create_graph] *)
(* ===================================================================== *)

(** ** Pass 1 *)

Lemma for_each_app {A} (l1 l2 : list A) (body : A -> M unit) (h : Harness) :
  for_each (l1 ++ l2) body h = (for_each l1 body ;; for_each l2 body) h.
Proof.
  revert h. induction l1 as [|x l1 IH]; intros h; simpl.
  - reflexivity.
  - unfold bind in *. destruct (body x h) as [h1 [[]|e]]; [apply IH | reflexivity].
Qed.

Lemma for_each_flat_map {A B} (f : A -> list B) (l : list A)
    (body : B -> M unit) (h : Harness) :
  for_each (flat_map f l) body h = for_each l (fun x => for_each (f x) body) h.
Proof.
  revert h. induction l as [|x l IH]; intros h; simpl; [reflexivity|].
  rewrite for_each_app. unfold bind.
  destruct (for_each (f x) body h) as [h1 [[]|e]]; [apply IH | reflexivity].
Qed.

Lemma for_each_ext {A} (l : list A) (body body' : A -> M unit) :
  (forall x h, body x h = body' x h) ->
  forall h, for_each l body h = for_each l body' h.
Proof.
  intros E. induction l as [|x l IH]; intros h; simpl; [reflexivity|].
  unfold bind. rewrite E. destruct (body' x h) as [h1 [[]|e]]; [apply IH | reflexivity].
Qed.

Lemma prepare_connection_steps (c : Connection) (h : Harness) :
  prepare_connection c h = run_steps (connection_steps c) h.
Proof.
  unfold prepare_connection, run_steps, connection_steps, when.
  destruct (negb (is_none (from_port c))), (negb (is_none (to_port c)));
    cbn [app for_each fst snd];
    change (apply_step SetPortsRight) with (set_ports_right true);
    change (apply_step SetPortsLeft) with (set_ports_left true);
    unfold bind, ret.
  - destruct (update_connector (from_name c) (set_ports_right true) h)
      as [h1 [[]|e]]; [|reflexivity].
    destruct (update_connector (to_name c) (set_ports_left true) h1)
      as [h2 [[]|e]]; reflexivity.
  - destruct (update_connector (from_name c) (set_ports_right true) h)
      as [h1 [[]|e]]; reflexivity.
  - destruct (update_connector (to_name c) (set_ports_left true) h)
      as [h1 [[]|e]]; reflexivity.
  - reflexivity.
Qed.

Lemma prepare_mate_steps (m : MatePin) (h : Harness) :
  prepare_mate m h = run_steps (mate_steps m) h.
Proof.
  unfold prepare_mate, run_steps, mate_steps.
  cbn [app for_each fst snd].
  change (apply_step SetPortsRight) with (set_ports_right true).
  change (apply_step SetPortsLeft) with (set_ports_left true).
  change (apply_step (ActivatePin (mate_from_port m)))
    with (activate_pin (mate_from_port m)).
  change (apply_step (ActivatePin (mate_to_port m)))
    with (activate_pin (mate_to_port m)).
  unfold bind, ret.
  repeat match goal with
         | |- context [update_connector ?n ?f ?k] =>
             destruct (update_connector n f k) as [? [[]|?]]; try reflexivity
         end.
Qed.

(** Pass 1 makes the steps of [pass1_steps], one after the other, and
    stops at the first that raises. *)
Lemma prepare_ports_as_steps (h : Harness) :
  prepare_ports h = run_steps (pass1_steps h) h.
Proof.
  assert (L : prepare_ports h
              = (for_each (map snd (cables h))
                          (fun cable => for_each (connections cable) prepare_connection) ;;
                 for_each (mates_pin h) prepare_mate) h) by reflexivity.
  rewrite L. unfold run_steps, pass1_steps. rewrite for_each_app. unfold bind.
  rewrite for_each_flat_map.
  rewrite (for_each_ext (map snd (cables h))
             (fun cable => for_each (connections cable) prepare_connection)
             (fun x => for_each (flat_map connection_steps (connections x))
                                (fun ns => update_connector (fst ns) (apply_step (snd ns))))).
  - destruct (for_each (map snd (cables h)) _ h) as [h1 [[]|e]]; [|reflexivity].
    rewrite for_each_flat_map. apply for_each_ext. apply prepare_mate_steps.
  - intros cable k. rewrite for_each_flat_map. apply for_each_ext.
    apply prepare_connection_steps.
Qed.

Lemma set_connectors_same (h : Harness) : set_connectors (connectors h) h = h.
Proof. now destruct h. Qed.

Lemma grows_refl (c : Connector) : grows c c.
Proof. now repeat split. Qed.

Lemma grows_trans (a b c : Connector) : grows a b -> grows b c -> grows a c.
Proof.
  intros (C1 & L1 & R1 & V1) (C2 & L2 & R2 & V2). repeat split; auto.
  now rewrite C2.
Qed.

Lemma apply_step_grows (s : port_step) (c : Connector) : grows c (apply_step s c).
Proof.
  destruct s; simpl; repeat split; auto.
  intros q. apply activate_pin_keeps_visible.
Qed.

Lemma step_done_grows (s : port_step) (c c' : Connector) :
  grows c c' -> step_done s c -> step_done s c'.
Proof. intros (_ & L & R & V). destruct s; simpl; auto. Qed.

Lemma apply_step_done (s : port_step) (c : Connector) : step_done s (apply_step s c).
Proof. destruct s; simpl; try reflexivity. apply dict_get_set_same. Qed.

Lemma dict_set_same_value {K V} `{PyEq K} (k : K) (v : V) (d : dict K V) :
  dict_get k d = Some v -> dict_set k v d = d.
Proof.
  induction d as [|[k0 v0] d IH]; simpl; [discriminate|].
  destruct (py_eqb k0 k); [now intros [= ->] | intros G; now rewrite (IH G)].
Qed.

Lemma step_done_absorbs (s : port_step) (c : Connector) :
  step_done s c -> apply_step s c = c.
Proof.
  destruct s; simpl; intros D.
  - destruct c; simpl in *. now subst.
  - destruct c; simpl in *. now subst.
  - unfold activate_pin. rewrite (dict_set_same_value _ _ _ D). now destruct c.
Qed.

Lemma connectors_grow_refl (d : dict string Connector) : connectors_grow d d.
Proof.
  induction d as [|a d IH]; constructor; [|exact IH].
  split; [reflexivity | apply grows_refl].
Qed.

Lemma connectors_grow_trans (a b c : dict string Connector) :
  connectors_grow a b -> connectors_grow b c -> connectors_grow a c.
Proof.
  intros G1. revert c. induction G1 as [|x y a b (E1 & H1) _ IH]; intros c G2.
  - inversion G2. constructor.
  - inversion G2 as [|y' z b' c' (E2 & H2) G2']; subst. constructor.
    + split; [congruence | eapply grows_trans; eassumption].
    + now apply IH.
Qed.

Lemma connectors_grow_set (n : string) (c c' : Connector)
    (d : dict string Connector) :
  dict_get n d = Some c -> grows c c' -> connectors_grow d (dict_set n c' d).
Proof.
  intros G Gr. induction d as [|[k v] d IH]; simpl in *; [discriminate|].
  destruct (String.eqb k n).
  - injection G as ->. constructor; [now split | apply connectors_grow_refl].
  - constructor; [split; [reflexivity | apply grows_refl] | now apply IH].
Qed.

Lemma connectors_grow_get (d d' : dict string Connector) (n : string) :
  connectors_grow d d' ->
  match dict_get n d with
  | Some c => exists c', dict_get n d' = Some c' /\ grows c c'
  | None => dict_get n d' = None
  end.
Proof.
  induction 1 as [|[k v] [k' v'] d d' (E & G) _ IH]; simpl; [reflexivity|].
  simpl in E. subst k'. destruct (String.eqb k n); [|exact IH].
  now exists v'.
Qed.

Lemma connectors_grow_core (d d' : dict string Connector) :
  connectors_grow d d' ->
  dict_map connector_core d' = dict_map connector_core d.
Proof.
  induction 1 as [|[k v] [k' v'] d d' (E & (C & _)) _ IH]; simpl; [reflexivity|].
  simpl in E, C. now rewrite E, C, IH.
Qed.

(** A step on the connectors: it raises [KeyError] when the name is not
    that of a declared connector, and else replaces the connector. *)
Lemma update_connector_run (name : option string) (f : Connector -> Connector)
    (h : Harness) :
  update_connector name f h
  = match find_connector h name with
    | OK c =>
        match name with
        | Some n => (set_connectors (dict_set n (f c) (connectors h)) h, OK tt)
        | None => (h, OK tt)
        end
    | Raise e => (h, Raise e)
    end.
Proof.
  unfold update_connector, get_connector. unfold_m.
  destruct (find_connector h name); [|reflexivity].
  destruct name; reflexivity.
Qed.

Lemma find_connector_raises (h : Harness) (name : option string) (e : pyexn) :
  find_connector h name = Raise e -> e = KeyError (name_val name).
Proof.
  unfold find_connector. destruct name as [n|]; simpl.
  - destruct (dict_get n (connectors h)); [discriminate | now intros [= <-]].
  - now intros [= <-].
Qed.

(** Whatever the steps and the outcome: only the connectors change, and
    they only grow; an exception is a [KeyError]. *)
Lemma run_steps_frame (l : list (option string * port_step)) (h h1 : Harness)
    (r : result unit) :
  run_steps l h = (h1, r) ->
  h1 = set_connectors (connectors h1) h
  /\ connectors_grow (connectors h) (connectors h1)
  /\ (forall e, r = Raise e -> exists k, e = KeyError k).
Proof.
  unfold run_steps. revert h. induction l as [|[n s] l IH]; intros h; simpl.
  - intros [= <- <-]. split; [symmetry; apply set_connectors_same|].
    split; [apply connectors_grow_refl | discriminate].
  - unfold bind. simpl. rewrite update_connector_run.
    destruct (find_connector h n) as [c|e0] eqn:F.
    + destruct n as [n|]; [|discriminate].
      simpl in F. destruct (dict_get n (connectors h)) as [c0|] eqn:G;
        [|discriminate]. injection F as <-.
      intros E. destruct (IH _ E) as (S & Gr & Ex).
      simpl in S, Gr. split; [exact S|]. split; [|exact Ex].
      eapply connectors_grow_trans; [|exact Gr].
      apply (connectors_grow_set n c0 _ _ G), apply_step_grows.
    + intros [= <- <-]. split; [symmetry; apply set_connectors_same|].
      split; [apply connectors_grow_refl|].
      intros e [= <-]. eexists. exact (find_connector_raises _ _ _ F).
Qed.

(** When the steps go through, each of them shows on its connector. *)
Lemma run_steps_done (l : list (option string * port_step)) (h h1 : Harness) :
  run_steps l h = (h1, OK tt) ->
  forall n s, In (n, s) l ->
              exists c, find_connector h1 n = OK c /\ step_done s c.
Proof.
  revert h. induction l as [|[n0 s0] l IH]; intros h E n s Hin; [contradiction|].
  unfold run_steps in E. simpl in E. unfold bind in E. simpl in E.
  rewrite update_connector_run in E.
  destruct (find_connector h n0) as [c|e0] eqn:F; [|discriminate].
  destruct n0 as [n0|]; [|discriminate].
  simpl in F. destruct (dict_get n0 (connectors h)) as [c0|] eqn:G; [|discriminate].
  injection F as <-.
  destruct Hin as [[= <- <-] | Hin].
  - destruct (run_steps_frame _ _ _ _ E) as (_ & Gr & _). simpl in Gr.
    pose proof (connectors_grow_get _ _ n0 Gr) as K.
    rewrite dict_get_set_same in K. destruct K as (c' & G' & Gc).
    exists c'. simpl. rewrite G'. split; [reflexivity|].
    eapply step_done_grows; [exact Gc | apply apply_step_done].
  - exact (IH _ E n s Hin).
Qed.

(** Steps that all show already change nothing. *)
Lemma run_steps_absorbed (l : list (option string * port_step)) (h : Harness) :
  (forall n s, In (n, s) l ->
               exists c, find_connector h n = OK c /\ step_done s c) ->
  run_steps l h = (h, OK tt).
Proof.
  induction l as [|[n0 s0] l IH]; intros D; [reflexivity|].
  unfold run_steps. simpl. unfold bind. simpl. rewrite update_connector_run.
  destruct (D n0 s0 (or_introl eq_refl)) as (c & F & Dc). rewrite F.
  destruct n0 as [n0|]; [|discriminate].
  simpl in F. destruct (dict_get n0 (connectors h)) as [c0|] eqn:G; [|discriminate].
  injection F as <-. rewrite (step_done_absorbs _ _ Dc).
  rewrite (dict_set_same_value _ _ _ G), set_connectors_same.
  apply IH. intros n s Hin. apply D. now right.
Qed.

(** A step whose name is not declared makes the run raise [KeyError], at
    that step or before. *)
Lemma run_steps_undeclared (l : list (option string * port_step)) (h : Harness)
    (n : option string) (s : port_step) :
  In (n, s) l -> has_connector n h = false ->
  exists h1 k, run_steps l h = (h1, Raise (KeyError k)).
Proof.
  revert h. induction l as [|[n0 s0] l IH]; intros h Hin U; [contradiction|].
  unfold run_steps. simpl. unfold bind. simpl. rewrite update_connector_run.
  destruct (find_connector h n0) as [c|e0] eqn:F.
  - destruct n0 as [n0|]; [|discriminate].
    simpl in F. destruct (dict_get n0 (connectors h)) as [c0|] eqn:G; [|discriminate].
    injection F as <-.
    destruct Hin as [[= <- <-] | Hin].
    + unfold has_connector, dict_mem in U. rewrite G in U. discriminate.
    + apply IH; [exact Hin|].
      unfold has_connector, dict_mem in *. destruct n as [n|]; [|reflexivity].
      simpl. pose proof (connectors_grow_get _ _ n
                           (connectors_grow_set n0 c0 (apply_step s0 c0) _ G
                              (apply_step_grows s0 c0))) as K.
      destruct (dict_get n (connectors h)); [discriminate|]. now rewrite K.
  - exists h. eexists. rewrite (find_connector_raises _ _ _ F). reflexivity.
Qed.

Lemma prepare_ports_frame (h h1 : Harness) (r : result unit) :
  prepare_ports h = (h1, r) ->
  h1 = set_connectors (connectors h1) h
  /\ connectors_grow (connectors h) (connectors h1)
  /\ (forall e, r = Raise e -> exists k, e = KeyError k).
Proof. rewrite prepare_ports_as_steps. apply run_steps_frame. Qed.

(** Pass 1 on a state that pass 1 has left changes nothing. *)
Lemma prepare_ports_again (h h1 : Harness) :
  prepare_ports h = (h1, OK tt) -> prepare_ports h1 = (h1, OK tt).
Proof.
  intros P. pose proof P as Q. rewrite prepare_ports_as_steps in Q.
  destruct (prepare_ports_frame _ _ _ P) as (S & _ & _).
  rewrite prepare_ports_as_steps.
  assert (E : pass1_steps h1 = pass1_steps h) by (rewrite S; reflexivity).
  rewrite E. apply run_steps_absorbed. exact (run_steps_done _ _ _ Q).
Qed.

Lemma connection_steps_in_pass1 (h : Harness) (cable : Cable) (c : Connection)
    (ns : option string * port_step) :
  In cable (map snd (cables h)) -> In c (connections cable) ->
  In ns (connection_steps c) -> In ns (pass1_steps h).
Proof.
  intros Hc Hn Hs. unfold pass1_steps. apply in_or_app. left.
  apply in_flat_map. exists cable. split; [exact Hc|].
  apply in_flat_map. now exists c.
Qed.

Section CompileFacts.
Variable get_color_hex : option string -> bool -> list string.
Variable default_color : string.

(** The state that [create_graph] leaves is the one pass 1 leaves. *)
Lemma create_graph_state (h h1 : Harness) (r : result (list dot_stmt)) :
  create_graph get_color_hex default_color h = (h1, r) ->
  exists r0, prepare_ports h = (h1, r0)
             /\ (forall g, r = OK g -> r0 = OK tt)
             /\ (forall e, r0 = Raise e -> r = Raise e).
Proof.
  rewrite create_graph_steps.
  destruct (prepare_ports h) as [h0 [[]|e]].
  - destruct (emit_all connector_stmts (map snd (connectors h0)));
      [destruct (cables_stmts _ _ _ _ _ _);
       [destruct (mates_stmts h0 (mates_pin h0) None)|]|];
      intros [= <- <-]; exists (OK tt); repeat split; discriminate.
  - intros [= <- <-]. exists (Raise e). repeat split; [discriminate|].
    now intros e0 [= <-].
Qed.

Lemma create_graph_grows (h h1 : Harness) (r : result (list dot_stmt)) :
  create_graph get_color_hex default_color h = (h1, r) ->
  h1 = set_connectors (connectors h1) h
  /\ connectors_grow (connectors h) (connectors h1).
Proof.
  intros E. destruct (create_graph_state _ _ _ E) as (r0 & P & _).
  destruct (prepare_ports_frame _ _ _ P) as (S & Gr & _). now split.
Qed.

(** X10. Whatever the outcome, [create_graph] changes nothing of the harness
    but port flags and activated pins of connectors, and those it only
    sets: cables, mates, the bill of materials and its cache are as
    before; the connectors have the names, the order and every other
    field they had; a port flag that was set is set, a pin that was
    activated is activated. *)
Theorem create_graph_only_sets_flags (h h1 : Harness)
    (r : result (list dot_stmt)) :
  create_graph get_color_hex default_color h = (h1, r) ->
  h1 = set_connectors (connectors h1) h
  /\ dict_map connector_core (connectors h1) = dict_map connector_core (connectors h)
  /\ forall n c,
       dict_get n (connectors h) = Some c ->
       exists c',
         dict_get n (connectors h1) = Some c'
         /\ (ports_left c = true -> ports_left c' = true)
         /\ (ports_right c = true -> ports_right c' = true)
         /\ (forall p, dict_get p (visible_pins c) = Some true ->
                       dict_get p (visible_pins c') = Some true).
Proof.
  intros E. destruct (create_graph_grows _ _ _ E) as (S & Gr).
  split; [exact S|]. split; [apply connectors_grow_core, Gr|].
  intros n c G. pose proof (connectors_grow_get _ _ n Gr) as K. rewrite G in K.
  destruct K as (c' & G' & (_ & L & R & V)). now exists c'.
Qed.

(** X11. When [create_graph] returns, every connector named as the [from]
    end of a connection (with a pin) has [ports_right] set and every
    connector named as the [to] end has [ports_left] set. *)
Theorem create_graph_sets_port_flags (h h1 : Harness) (g : list dot_stmt) :
  create_graph get_color_hex default_color h = (h1, OK g) ->
  forall cable connection,
    In cable (map snd (cables h)) -> In connection (connections cable) ->
    (from_port connection <> PyNone ->
     exists c, find_connector h1 (from_name connection) = OK c
               /\ ports_right c = true)
    /\ (to_port connection <> PyNone ->
        exists c, find_connector h1 (to_name connection) = OK c
                  /\ ports_left c = true).
Proof.
  intros E cable c Hc Hn.
  destruct (create_graph_state _ _ _ E) as (r0 & P & Ok & _).
  rewrite (Ok g eq_refl) in P. rewrite prepare_ports_as_steps in P.
  pose proof (run_steps_done _ _ _ P) as D.
  split; intros N.
  - apply (D (from_name c) SetPortsRight).
    apply (connection_steps_in_pass1 h cable c _ Hc Hn).
    unfold connection_steps. apply in_or_app. left.
    destruct (from_port c); try (now left). contradiction.
  - apply (D (to_name c) SetPortsLeft).
    apply (connection_steps_in_pass1 h cable c _ Hc Hn).
    unfold connection_steps. apply in_or_app. right.
    destruct (to_port c); try (now left). contradiction.
Qed.

(** X12. Compiling again gives the same graph: on the state that a call of
    [create_graph] has left, the next call returns the same graph and
    leaves the state as it is. *)
Theorem create_graph_again (h h1 : Harness) (g : list dot_stmt) :
  create_graph get_color_hex default_color h = (h1, OK g) ->
  create_graph get_color_hex default_color h1 = (h1, OK g).
Proof.
  intros E. rewrite create_graph_steps in *.
  destruct (prepare_ports h) as [h0 [[]|e]] eqn:P; [|discriminate].
  assert (H1 : h1 = h0).
  { destruct (emit_all connector_stmts (map snd (connectors h0)));
      [destruct (cables_stmts _ _ _ _ _ _);
       [destruct (mates_stmts h0 (mates_pin h0) None)|]|];
      now injection E as <- _. }
  subst h1. rewrite (prepare_ports_again _ _ P). exact E.
Qed.

(** X13. A connection with a pin on a connector that was never declared is
    accepted by [connect] and makes [create_graph] raise [KeyError]. *)
Theorem create_graph_undeclared_connector_KeyError (h : Harness)
    (cable : Cable) (connection : Connection) :
  In cable (map snd (cables h)) ->
  In connection (connections cable) ->
  (from_port connection <> PyNone /\ has_connector (from_name connection) h = false)
  \/ (to_port connection <> PyNone /\ has_connector (to_name connection) h = false) ->
  exists h1 k,
    create_graph get_color_hex default_color h = (h1, Raise (KeyError k)).
Proof.
  intros Hc Hn U.
  assert (S : exists n s, In (n, s) (pass1_steps h) /\ has_connector n h = false).
  { destruct U as [(N & U) | (N & U)].
    - exists (from_name connection), SetPortsRight. split; [|exact U].
      apply (connection_steps_in_pass1 h cable connection _ Hc Hn).
      unfold connection_steps. apply in_or_app. left.
      destruct (from_port connection); try (now left). contradiction.
    - exists (to_name connection), SetPortsLeft. split; [|exact U].
      apply (connection_steps_in_pass1 h cable connection _ Hc Hn).
      unfold connection_steps. apply in_or_app. right.
      destruct (to_port connection); try (now left). contradiction. }
  destruct S as (n & s & Hin & U').
  destruct (run_steps_undeclared _ h n s Hin U') as (h1 & k & R).
  exists h1, k. rewrite create_graph_steps, prepare_ports_as_steps, R. reflexivity.
Qed.

End CompileFacts.

(** ** The order of the nodes *)

Lemma node_names_app (a b : list dot_stmt) :
  node_names (a ++ b) = node_names a ++ node_names b.
Proof. unfold node_names. apply flat_map_app. Qed.

Lemma graph_edges_app (a b : list dot_stmt) :
  graph_edges (a ++ b) = graph_edges a ++ graph_edges b.
Proof. unfold graph_edges. apply flat_map_app. Qed.

Lemma node_names_graph (cs ws ms : list dot_stmt) :
  node_names (graph_defaults ++ cs ++ ws ++ ms)
  = node_names cs ++ node_names ws ++ node_names ms.
Proof. now rewrite !node_names_app. Qed.

Lemma node_names_loop_edges (c : Connector) (side dir : string)
    (l : list (pyval * pyval)) :
  node_names (map (loop_edge c side dir) l) = [].
Proof. induction l as [|x l IH]; simpl; [reflexivity | exact IH]. Qed.

Lemma connector_stmts_node (c : Connector) (out : list dot_stmt) :
  connector_stmts c = OK out -> node_names out = [connector_name c].
Proof.
  unfold connector_stmts, loop_stmts.
  destruct (Nat.ltb 0 (List.length (loops c))); simpl.
  - destruct (ports_left c); simpl.
    + intros [= <-]. simpl. now rewrite node_names_loop_edges.
    + destruct (ports_right c); simpl; [|discriminate].
      intros [= <-]. simpl. now rewrite node_names_loop_edges.
  - now intros [= <-].
Qed.

Lemma connectors_stmts_nodes (l : list Connector) (cs : list dot_stmt) :
  emit_all connector_stmts l = OK cs -> node_names cs = map connector_name l.
Proof.
  revert cs. induction l as [|c l IH]; simpl; intros cs E.
  - now injection E as <-.
  - destruct (connector_stmts c) as [out|] eqn:Ec; simpl in E; [|discriminate].
    destruct (emit_all connector_stmts l) as [rest|]; simpl in E; [|discriminate].
    injection E as <-. rewrite node_names_app, (connector_stmts_node _ _ Ec).
    now rewrite (IH rest eq_refl).
Qed.

Lemma mates_stmts_nodes (h : Harness) (l : list MatePin) (dir : option string)
    (ms : list dot_stmt) :
  mates_stmts h l dir = OK ms -> node_names ms = [].
Proof.
  revert dir ms. induction l as [|m l IH]; intros dir ms E.
  - cbn in E. now injection E as <-.
  - cbn [mates_stmts] in E.
    destruct (mate_dir (mate_shape m) dir) as [d|]; cbn [rbind] in E; [|discriminate].
    destruct (find_connector h (Some (mate_from_name m))); cbn [rbind] in E;
      [|discriminate].
    destruct (find_connector h (Some (mate_to_name m))); cbn [rbind] in E;
      [|discriminate].
    destruct (mates_stmts h l (Some d)) as [rest|] eqn:Er; cbn [rbind] in E;
      [|discriminate].
    injection E as <-. cbn. exact (IH _ _ Er).
Qed.

Section NodeFacts.
Variable get_color_hex : option string -> bool -> list string.
Variable default_color : string.

Lemma connection_stmts_nodes (pad : bool) (h : Harness) (cable : Cable)
    (s : option string) (c : Connection) (out : list dot_stmt)
    (subst : list (string * string)) :
  connection_stmts get_color_hex pad h cable s c = OK (out, subst) ->
  node_names out = [].
Proof.
  unfold connection_stmts, left_stmts, right_stmts.
  destruct (edge_color get_color_hex pad cable s c); simpl; [|discriminate].
  destruct (negb (is_none (from_port c))); simpl.
  - destruct (find_connector h (from_name c)) as [fc|]; simpl; [|discriminate].
    destruct (endpoint_text fc _ _); simpl; [|discriminate].
    destruct (negb (is_none (to_port c))); simpl.
    + destruct (find_connector h (to_name c)) as [tc|]; simpl; [|discriminate].
      destruct (endpoint_text tc _ _); simpl; [|discriminate].
      now intros [= <- _].
    + now intros [= <- _].
  - destruct (negb (is_none (to_port c))); simpl.
    + destruct (find_connector h (to_name c)) as [tc|]; simpl; [|discriminate].
      destruct (endpoint_text tc _ _); simpl; [|discriminate].
      now intros [= <- _].
    + now intros [= <- _].
Qed.

Lemma connections_stmts_nodes (pad : bool) (h : Harness) (cable : Cable)
    (s : option string) (l : list Connection) (out : list dot_stmt)
    (subst : list (string * string)) :
  connections_stmts get_color_hex pad h cable s l = OK (out, subst) ->
  node_names out = [].
Proof.
  revert out subst. induction l as [|c l IH]; simpl; intros out subst E.
  - now injection E as <- _.
  - destruct (connection_stmts get_color_hex pad h cable s c) as [[o1 s1]|] eqn:E1;
      simpl in E; [|discriminate].
    destruct (connections_stmts get_color_hex pad h cable s l) as [[o2 s2]|] eqn:E2;
      simpl in E; [|discriminate].
    injection E as <- _. rewrite node_names_app.
    now rewrite (connection_stmts_nodes _ _ _ _ _ _ _ E1), (IH _ _ eq_refl).
Qed.

Lemma cables_stmts_nodes (pad : bool) (h : Harness) (l : list Cable)
    (s : option string) (ws : list dot_stmt) :
  cables_stmts get_color_hex default_color pad h l s = OK ws ->
  node_names ws = map cable_name l.
Proof.
  revert s ws. induction l as [|c l IH]; simpl; intros s ws E.
  - now injection E as <-.
  - destruct (cable_stmts get_color_hex default_color pad h c s) as [[out s']|] eqn:Ec;
      simpl in E; [|discriminate].
    destruct (cables_stmts get_color_hex default_color pad h l s') as [rest|] eqn:Er;
      simpl in E; [|discriminate].
    injection E as <-. rewrite node_names_app, (IH _ _ Er).
    unfold cable_stmts in Ec.
    destruct (shield_stmt get_color_hex c s) as [[sc s1]|]; simpl in Ec; [|discriminate].
    destruct (connections_stmts get_color_hex pad h c s1 (connections c))
      as [[edges substs]|] eqn:En; simpl in Ec; [|discriminate].
    injection Ec as <- _. rewrite node_names_app.
    now rewrite (connections_stmts_nodes _ _ _ _ _ _ _ En).
Qed.

(** X14. The graph that [create_graph] returns has one node for each
    connector and one for each cable, under their names: first the
    connectors in the order of their declaration, then the cables in the
    order of theirs. *)
Theorem create_graph_nodes_in_declaration_order (h h1 : Harness)
    (g : list dot_stmt) :
  create_graph get_color_hex default_color h = (h1, OK g) ->
  node_names g
  = map (fun kv => connector_name (snd kv)) (connectors h)
    ++ map (fun kv => cable_name (snd kv)) (cables h).
Proof.
  intros E.
  destruct (create_graph_grows _ _ _ _ _ E) as (S & Gr).
  pose proof (connectors_grow_core _ _ Gr) as Core.
  rewrite create_graph_steps in E.
  destruct (prepare_ports h) as [h0 [[]|e]] eqn:P; [|discriminate].
  destruct (emit_all connector_stmts (map snd (connectors h0))) as [cs|] eqn:Ec;
    [|discriminate].
  destruct (cables_stmts _ _ _ _ _ _) as [ws|] eqn:Ew; [|discriminate].
  destruct (mates_stmts h0 (mates_pin h0) None) as [ms|] eqn:Em; [|discriminate].
  injection E as <- <-.
  transitivity (node_names cs ++ node_names ws ++ node_names ms);
    [exact (node_names_graph cs ws ms)|].
  rewrite (connectors_stmts_nodes _ _ Ec), (cables_stmts_nodes _ _ _ _ _ Ew),
    (mates_stmts_nodes _ _ _ _ Em).
  rewrite app_nil_r, !map_map. f_equal.
  - transitivity (map (fun kv => connector_name (snd kv))
                      (dict_map connector_core (connectors h0))).
    + unfold dict_map. rewrite map_map. reflexivity.
    + rewrite Core. unfold dict_map. rewrite map_map. reflexivity.
  - rewrite S. reflexivity.
Qed.

(** ** The rows of the wires *)

(** X15. The wire table of a cable has one row for each position of its
    longer list, colours or wire labels; the row at position [i] has the
    number [i + 1] and the bar of the colour at that position, made from
    no colour when the labels go beyond the colours. *)
Theorem wire_rows_by_position (pad : bool) (cable : Cable) :
  List.length (wire_rows get_color_hex default_color pad cable)
  = Nat.max (List.length (colors cable)) (List.length (wirelabels cable))
  /\ forall i,
       i < Nat.max (List.length (colors cable)) (List.length (wirelabels cable)) ->
       nth_error (wire_rows get_color_hex default_color pad cable) i
       = Some (wire_bar get_color_hex default_color pad (S i)
                 (nth_error (colors cable) i)).
Proof.
  unfold wire_rows. split.
  - now rewrite length_map, enumerate_length, zip_longest_length.
  - intros i L. rewrite nth_error_map, enumerate_nth, zip_longest_nth.
    now rewrite (proj2 (Nat.ltb_lt _ _) L).
Qed.

(** ** The colour of an edge *)

(** X16. The wire number of a connection is used as a Python index into the
    colours. A number from 1 to the number of colours takes the colour of
    that wire; a number from 0 down to one above minus that number counts
    from the end (0 is the last wire); any other number raises
    [IndexError]. *)
Theorem edge_color_of_wire_number (pad : bool) (cable : Cable)
    (shield_color_hex : option string) (connection : Connection) (z : Z) :
  via_port connection = PyInt z ->
  let n := Z.of_nat (List.length (colors cable)) in
  (forall c,
      (1 <= z <= n)%Z -> nth_error (colors cable) (Z.to_nat (z - 1)) = Some c ->
      edge_color get_color_hex pad cable shield_color_hex connection
      = OK (str_join ":" (["#000000"] ++ get_color_hex (Some c) pad ++ ["#000000"])))
  /\ (forall c,
         (- n < z <= 0)%Z -> nth_error (colors cable) (Z.to_nat (n + z - 1)) = Some c ->
         edge_color get_color_hex pad cable shield_color_hex connection
         = OK (str_join ":" (["#000000"] ++ get_color_hex (Some c) pad ++ ["#000000"])))
  /\ ((n < z \/ z <= - n)%Z ->
      edge_color get_color_hex pad cable shield_color_hex connection
      = Raise IndexError).
Proof.
  intros V n. unfold edge_color, py_nth. rewrite V. fold n. repeat split.
  - intros c R Hn. destruct (0 <=? z - 1)%Z eqn:E; [|apply Z.leb_gt in E; lia].
    now rewrite Hn.
  - intros c R Hn. destruct (0 <=? z - 1)%Z eqn:E; [apply Z.leb_le in E; lia|].
    destruct (- n <=? z - 1)%Z eqn:F; [|apply Z.leb_gt in F; lia].
    replace (n + (z - 1))%Z with (n + z - 1)%Z by lia. now rewrite Hn.
  - intros [R | R].
    + destruct (0 <=? z - 1)%Z eqn:E; [|apply Z.leb_gt in E; lia].
      assert (N : nth_error (colors cable) (Z.to_nat (z - 1)) = None)
        by (apply nth_error_None; unfold n in R; lia).
      now rewrite N.
    + destruct (0 <=? z - 1)%Z eqn:E; [apply Z.leb_le in E; lia|].
      destruct (- n <=? z - 1)%Z eqn:F; [apply Z.leb_le in F; lia | reflexivity].
Qed.

End NodeFacts.

(** ** Loops on the right *)

Section MoreRenderingFacts.
Variable get_color_hex : option string -> bool -> list string.
Variable default_color : string.

(** X17. When, after the ports have been prepared, a connector with loops
    has [ports_right] set and [ports_left] not, its loops are drawn on the
    right: each loop is the edge between the ports [p<pin>r] with compass
    point [e]; these edges are in every graph that [create_graph]
    returns; and the loop over the connectors does emit them, as it
    returns when no connector lacks a side for its loops. *)
Theorem loops_drawn_on_right_side (h h1 : Harness) (c : Connector) :
  prepare_ports h = (h1, OK tt) ->
  In c (map snd (connectors h1)) ->
  loops c <> [] ->
  ports_left c = false ->
  ports_right c = true ->
  loop_stmts c
  = OK (DotAttr "edge" [("color", "#000000:#ffffff:#000000")]
        :: map (fun loop =>
                  DotEdge
                    (connector_name c ++ ":p" ++ py_str (fst loop) ++ "r:e")%string
                    (connector_name c ++ ":p" ++ py_str (snd loop) ++ "r:e")%string)
               (loops c))
  /\ (forall h' g,
         create_graph get_color_hex default_color h = (h', OK g) ->
         forall loop,
           In loop (loops c) ->
           In (DotEdge
                 (connector_name c ++ ":p" ++ py_str (fst loop) ++ "r:e")%string
                 (connector_name c ++ ":p" ++ py_str (snd loop) ++ "r:e")%string)
              g)
  /\ ((forall c', In c' (map snd (connectors h1)) -> loops c' <> [] ->
                  ports_left c' = true \/ ports_right c' = true) ->
      exists cs,
        emit_all connector_stmts (map snd (connectors h1)) = OK cs
        /\ forall loop,
             In loop (loops c) ->
             In (DotEdge
                   (connector_name c ++ ":p" ++ py_str (fst loop) ++ "r:e")%string
                   (connector_name c ++ ":p" ++ py_str (snd loop) ++ "r:e")%string)
                cs).
Proof.
  intros P Hin L Pl Pr.
  assert (S : loop_stmts c
              = OK (DotAttr "edge" [("color", "#000000:#ffffff:#000000")]
                    :: map (loop_edge c "r" "e") (loops c))).
  { unfold loop_stmts. rewrite (loops_nonempty c L), Pl, Pr. reflexivity. }
  split; [exact S|].
  exact (loop_edges_reach_the_graph get_color_hex default_color h h1 c "r" "e"
           P Hin S).
Qed.

(** ** A harness without connections *)

Lemma connectors_without_loops (l : list Connector) (cs : list dot_stmt) :
  (forall c, In c l -> loops c = []) ->
  emit_all connector_stmts l = OK cs -> graph_edges cs = [].
Proof.
  revert cs. induction l as [|c l IH]; intros cs N; simpl.
  - now intros [= <-].
  - unfold connector_stmts at 1, loop_stmts.
    rewrite (N c (or_introl eq_refl)). simpl.
    destruct (emit_all connector_stmts l) as [rest|]; simpl; [|discriminate].
    intros [= <-]. simpl. apply IH; [|reflexivity].
    intros c' H. apply N. now right.
Qed.

Lemma cables_without_connections (pad : bool) (h : Harness) (l : list Cable)
    (s : option string) (ws : list dot_stmt) :
  (forall cable, In cable l -> connections cable = []) ->
  cables_stmts get_color_hex default_color pad h l s = OK ws ->
  graph_edges ws = [].
Proof.
  revert s ws. induction l as [|c l IH]; intros s ws N; simpl.
  - now intros [= <-].
  - unfold cable_stmts. rewrite (N c (or_introl eq_refl)).
    destruct (shield_stmt get_color_hex c s) as [[sc s']|]; simpl; [|discriminate].
    destruct (cables_stmts get_color_hex default_color pad h l s') as [rest|] eqn:E;
      simpl; [|discriminate].
    intros [= <-]. simpl. apply (IH s' rest); [|exact E].
    intros c' H. apply N. now right.
Qed.

(** X18. On a harness without connections and without mates,
    [create_graph] leaves the harness as it is, whether it returns or
    raises; and when no connector has loops, a graph that it returns has
    no edge. *)
Theorem create_graph_without_connections (h h1 : Harness)
    (r : result (list dot_stmt)) :
  (forall cable, In cable (map snd (cables h)) -> connections cable = []) ->
  mates_pin h = [] ->
  create_graph get_color_hex default_color h = (h1, r) ->
  h1 = h
  /\ forall g,
       r = OK g ->
       (forall c, In c (map snd (connectors h)) -> loops c = []) ->
       graph_edges g = [].
Proof.
  intros Nc Nm G.
  assert (P : prepare_ports h = (h, OK tt)).
  { rewrite prepare_ports_as_steps.
    assert (E : pass1_steps h = []).
    { unfold pass1_steps. rewrite Nm. simpl. rewrite app_nil_r.
      induction (map snd (cables h)) as [|c l IH]; simpl; [reflexivity|].
      rewrite (Nc c (or_introl eq_refl)). simpl.
      apply IH. intros c' H. apply Nc. now right. }
    now rewrite E. }
  rewrite create_graph_steps, P in G.
  destruct (emit_all connector_stmts (map snd (connectors h))) as [cs|] eqn:Ec;
    [|injection G as <- <-; split; [reflexivity | discriminate]].
  destruct (cables_stmts _ _ _ _ _ _) as [ws|] eqn:Ew;
    [|injection G as <- <-; split; [reflexivity | discriminate]].
  rewrite Nm in G. cbn [mates_stmts] in G.
  assert (R : r = OK (graph_defaults ++ cs ++ ws ++ [])) by congruence.
  split; [congruence|]. intros g Eg Nl.
  assert (Eg' : g = graph_defaults ++ cs ++ ws ++ []) by congruence.
  rewrite Eg', !graph_edges_app.
  rewrite (connectors_without_loops _ _ Nl Ec).
  rewrite (cables_without_connections _ _ _ _ _ Nc Ew). reflexivity.
Qed.

End MoreRenderingFacts.

(** ** The rows of the pins *)

Lemma zip_longest_In_l {A B} (l1 : list A) (l2 : list B) (x : A) :
  In x l1 -> exists y, In (Some x, y) (zip_longest l1 l2).
Proof.
  revert l2. induction l1 as [|a l1 IH]; intros l2 Hin; [contradiction|].
  destruct Hin as [-> | Hin].
  - destruct l2 as [|b l2]; eexists; left; reflexivity.
  - destruct l2 as [|b l2].
    + destruct (IH [] Hin) as (y & I). exists y. now right.
    + destruct (IH l2 Hin) as (y & I). exists y. now right.
Qed.

Lemma zip_longest3_In {A B C} (l1 : list A) (l2 : list B) (l3 : list C) (x : A) :
  In x l1 -> exists y z, In (Some x, y, z) (zip_longest3 l1 l2 l3).
Proof.
  intros Hin. destruct (zip_longest_In_l l1 l2 x Hin) as (y & I).
  destruct (zip_longest_In_l (zip_longest l1 l2) l3 _ I) as (z & J).
  exists y, z. unfold zip_longest3. apply in_map_iff.
  exists (Some (Some x, y), z). now split.
Qed.

(** X19. With [hide_disconnected_pins], the pin table has rows only for
    activated pins; and every pin of the connector that is activated, or
    any pin when nothing is hidden, has its row, with the port [p<pin>l]
    if [ports_left] is set and the port [p<pin>r] if [ports_right] is
    set. *)
Theorem pin_rows_show_activated_pins (c : Connector) :
  (hide_disconnected_pins c = true ->
   forall row,
     In row (pin_rows c) ->
     dict_get (match row_pin row with Some p => p | None => PyNone end)
              (visible_pins c) = Some true)
  /\
  (forall p,
      In p (pins c) ->
      hide_disconnected_pins c = false
      \/ dict_get p (visible_pins c) = Some true ->
      exists row,
        In row (pin_rows c)
        /\ row_pin row = Some p
        /\ row_port_left row
           = (if ports_left c then Some ("p" ++ py_str p ++ "l")%string else None)
        /\ row_port_right row
           = (if ports_right c then Some ("p" ++ py_str p ++ "r")%string else None)).
Proof.
  unfold pin_rows. split.
  - intros H row Hin. apply in_flat_map in Hin.
    destruct Hin as ([[pin pinlabel] pincolor] & _ & Hr). rewrite H in Hr. simpl in Hr.
    destruct (dict_get (match pin with Some p => p | None => PyNone end)
                       (visible_pins c)) as [[|]|] eqn:G; simpl in Hr;
      try contradiction.
    destruct Hr as [<- | []]. simpl. exact G.
  - intros p Hin V.
    destruct (zip_longest3_In (pins c) (pinlabels c) (pincolors c) p Hin)
      as (y & z & I).
    eexists. split.
    + apply in_flat_map. exists (Some p, y, z). split; [exact I|].
      assert (E : hide_disconnected_pins c
                  && negb (match dict_get p (visible_pins c) with
                           | Some b => b
                           | None => false
                           end) = false).
      { destruct V as [-> | ->]; [reflexivity | apply andb_false_r]. }
      cbv beta iota. rewrite E. left. reflexivity.
    + simpl. repeat split.
Qed.

(** ** The pins that are recorded *)

(** What the body of the endpoint loop can leave in the locals, for a
    declared connector: they are as before, and the token is a pin; or the
    token was a label, and the locals of the endpoints of that name hold
    the pin it labels. *)
Lemma check_endpoint_leaves (h : Harness) (fn tn : option string) (n : string)
    (c : Connector) (pin a b a' b' : pyval) :
  dict_get n (connectors h) = Some c ->
  check_endpoint h fn tn (Some n) pin (a, b) = OK (a', b') ->
  (py_in pin (pins c) = true /\ a' = a /\ b' = b)
  \/ exists q,
       py_in q (pins c) = true
       /\ a' = (if py_eqb (Some n) fn then q else a)
       /\ b' = (if py_eqb (Some n) tn then q else b).
Proof.
  intros Hc. unfold check_endpoint. rewrite Hc.
  destruct (py_in pin (pins c) && py_in pin (pinlabels c)); simpl.
  - destruct (negb _); simpl; [discriminate|].
    destruct (py_in pin (pinlabels c)); simpl.
    + destruct (Nat.ltb 1 _); simpl; [discriminate|].
      destruct (py_index pin (pinlabels c)) as [i|]; simpl; [|discriminate].
      destruct (nth_error (pins c) i) as [q|]; simpl; [|discriminate].
      destruct (py_in q (pins c)) eqn:Iq; simpl; [|discriminate].
      intros [= <- <-]. right. now exists q.
    + destruct (py_in pin (pins c)) eqn:Ip; simpl; [|discriminate].
      intros [= <- <-]. now left.
  - destruct (py_in pin (pinlabels c)); simpl.
    + destruct (Nat.ltb 1 _); simpl; [discriminate|].
      destruct (py_index pin (pinlabels c)) as [i|]; simpl; [|discriminate].
      destruct (nth_error (pins c) i) as [q|]; simpl; [|discriminate].
      destruct (py_in q (pins c)) eqn:Iq; simpl; [|discriminate].
      intros [= <- <-]. right. now exists q.
    + destruct (py_in pin (pins c)) eqn:Ip; simpl; [|discriminate].
      intros [= <- <-]. now left.
Qed.

(** The pins the endpoint loop yields are pins of the declared connectors
    they belong to. *)
Lemma check_endpoints_yield_pins (h : Harness) (fn : option string) (fp : pyval)
    (tn : option string) (tp fp' tp' : pyval) :
  check_endpoints h fn fp tn tp = OK (fp', tp') ->
  (forall n c, fn = Some n -> dict_get n (connectors h) = Some c ->
               py_in fp' (pins c) = true)
  /\ (forall n c, tn = Some n -> dict_get n (connectors h) = Some c ->
                  py_in tp' (pins c) = true).
Proof.
  rewrite check_endpoints_steps.
  destruct (check_endpoint h fn tn fn fp (fp, tp)) as [[a b]|e] eqn:F; [|discriminate].
  intros T.
  (* the [from] step *)
  assert (Fa : forall n c, fn = Some n -> dict_get n (connectors h) = Some c ->
                           py_in a (pins c) = true
                           /\ (b = tp \/ (tn = Some n /\ py_in b (pins c) = true))).
  { intros n c -> Hc.
    destruct (check_endpoint_leaves h (Some n) tn n c fp fp tp a b Hc F)
      as [(Ip & -> & ->) | (q & Iq & -> & ->)].
    - split; [exact Ip | now left].
    - rewrite (py_eqb_refl (Some n)). split; [exact Iq|].
      destruct (py_eqb (Some n) tn) eqn:E; [right | now left].
      apply py_eqb_eq in E. now split. }
  assert (Fb : (forall n, fn = Some n -> dict_get n (connectors h) = None) ->
               a = fp /\ b = tp).
  { intros U. destruct fn as [n|].
    - rewrite (check_endpoint_undeclared h (Some n) tn (Some n) fp (fp, tp)) in F.
      + now injection F as <- <-.
      + unfold has_connector, dict_mem. now rewrite (U n eq_refl).
    - simpl in F. now injection F as <- <-. }
  (* the [to] step *)
  split.
  - intros n c -> Hc. destruct (Fa n c eq_refl Hc) as (Ia & _).
    destruct tn as [m|].
    + destruct (dict_get m (connectors h)) as [cm|] eqn:Hm.
      * destruct (check_endpoint_leaves h (Some n) (Some m) m cm tp a b fp' tp' Hm T)
          as [(_ & -> & _) | (q & Iq & -> & _)]; [exact Ia|].
        destruct (py_eqb (Some m) (Some n)) eqn:E; [|exact Ia].
        apply py_eqb_eq in E. injection E as ->. rewrite Hc in Hm.
        now injection Hm as <-.
      * rewrite check_endpoint_undeclared in T
          by (unfold has_connector, dict_mem; now rewrite Hm).
        now injection T as <- _.
    + simpl in T. now injection T as <- _.
  - intros m cm -> Hm.
    destruct (check_endpoint_leaves h fn (Some m) m cm tp a b fp' tp' Hm T)
      as [(Ip & _ & ->) | (q & Iq & _ & ->)].
    + destruct fn as [n|].
      * destruct (dict_get n (connectors h)) as [c|] eqn:Hc.
        -- destruct (Fa n c eq_refl Hc) as (_ & [-> | ([= ->] & Ib)]); [exact Ip|].
           rewrite Hc in Hm. now injection Hm as <-.
        -- destruct Fb as (_ & ->); [|exact Ip].
           intros n' [= <-]. exact Hc.
      * destruct Fb as (_ & ->); [discriminate | exact Ip].
    + now rewrite (py_eqb_refl (Some m)).
Qed.

(** X9. A call that returns has recorded, for each endpoint that names a
    declared connector, one of the pins of that connector: what goes on
    the cable for such an endpoint is never a label or an unknown token. *)
Theorem connect_records_pins_of_the_connector (h h' : Harness)
    (fn : option string) (fp : pyval) (via : string) (vw : pyval)
    (tn : option string) (tp : pyval) :
  connect fn fp via vw tn tp h = (h', OK tt) ->
  exists cable record,
    dict_get via (cables h) = Some cable
    /\ dict_get via (cables h')
       = Some (mkCable (cable_name cable) (colors cable) (wirelabels cable)
                 (shield cable) (connections cable ++ [record]))
    /\ from_name record = fn /\ to_name record = tn
    /\ (forall n c, fn = Some n -> dict_get n (connectors h) = Some c ->
                    In (from_port record) (pins c))
    /\ (forall n c, tn = Some n -> dict_get n (connectors h) = Some c ->
                    In (to_port record) (pins c)).
Proof.
  intros E.
  destruct (connect_returns _ _ _ _ _ _ _ _ E)
    as (fp' & tp' & vw' & cable & V & G & C).
  destruct (check_endpoints_yield_pins _ _ _ _ _ _ _ V) as (Pf & Pt).
  exists cable, (mkConnection fn fp' vw' tn tp'). split; [exact G|].
  split; [rewrite C; apply dict_get_set_same|]. simpl. repeat split.
  - intros n c Hn Hc. apply py_in_In. exact (Pf n c Hn Hc).
  - intros n c Hn Hc. apply py_in_In. exact (Pt n c Hn Hc).
Qed.

(* ===================================================================== *)
(** * What the methods of the class can reach *)
(* ===================================================================== *)

(** On a harness without the attribute [mates], [connect] leaves it
    without, and leaves the two lists of mates as they are. *)
Lemma connect_without_mates (h h' : Harness) (fn : option string) (fp : pyval)
    (via : string) (vw : pyval) (tn : option string) (tp : pyval)
    (r : result unit) :
  mates h = None ->
  connect fn fp via vw tn tp h = (h', r) ->
  mates h' = None /\ mates_pin h' = mates_pin h
  /\ mates_component h' = mates_component h.
Proof.
  intros Nm E. rewrite connect_steps in E.
  destruct (check_endpoints h fn fp tn tp) as [[fp' tp']|e0];
    [|injection E as <- _; now repeat split].
  assert (V : exists r1, check_via fn fp' via vw tn tp' h = (h, r1)).
  { destruct (py_in via arrows) eqn:A.
    - pose proof (check_via_arrow fn fp' via vw tn tp' h A) as S.
      rewrite Nm in S. eexists. exact S.
    - rewrite (check_via_no_arrow fn fp' via vw tn tp' h A).
      destruct (dict_get via (cables h)); eexists; reflexivity. }
  destruct V as (r1 & V). rewrite V in E.
  destruct r1 as [vw'|e1]; [|injection E as <- _; now repeat split].
  pose proof (record_connection_spec fn fp' via vw' tn tp' h) as R.
  destruct (dict_get via (cables h)) as [cable|] eqn:G.
  - rewrite (record_connection_run fn fp' via vw' tn tp' cable h G) in E.
    injection E as <- _. unfold recorded.
    set (h0 := set_cables _ h).
    destruct (activated_fields tn tp' (activated fn fp' h0)) as (_ & P1 & M1 & _ & _ & X1).
    destruct (activated_fields fn fp' h0) as (_ & P0 & M0 & _ & _ & X0).
    rewrite X1, X0, P1, P0, M1, M0. now repeat split.
  - rewrite R in E. injection E as <- _. now repeat split.
Qed.

Section Reach.
Variable get_color_hex : option string -> bool -> list string.
Variable default_color : string.
Variable generate_bom : Harness -> list bom_entry.

Lemma state_after_keeps_no_mates (call : api_call) (h : Harness) :
  mates h = None /\ mates_pin h = [] /\ mates_component h = [] ->
  let h' := state_after get_color_hex default_color generate_bom call h in
  mates h' = None /\ mates_pin h' = [] /\ mates_component h' = [].
Proof.
  intros (Nm & Np & Nc).
  destruct call as [| | | | | fn fp via vw tn tp | |]; simpl;
    try (now repeat split).
  - destruct (connect fn fp via vw tn tp h) as [h' r] eqn:E.
    destruct (connect_without_mates _ _ _ _ _ _ _ _ _ Nm E) as (A & B & C).
    simpl. now rewrite A, B, C.
  - destruct (create_graph get_color_hex default_color h) as [h' r] eqn:E.
    destruct (create_graph_grows _ _ _ _ _ E) as (S & _).
    simpl. rewrite S. now repeat split.
  - unfold bom. unfold_m. destruct (py_not_list (_bom h)); now repeat split.
Qed.

Lemma harness_after_no_mates (calls : list api_call) :
  let h := harness_after get_color_hex default_color generate_bom calls in
  mates h = None /\ mates_pin h = [] /\ mates_component h = [].
Proof.
  unfold harness_after.
  assert (G : forall h0, mates h0 = None /\ mates_pin h0 = [] /\ mates_component h0 = [] ->
              let h := fold_left (fun h call =>
                                    state_after get_color_hex default_color
                                                generate_bom call h) calls h0 in
              mates h = None /\ mates_pin h = [] /\ mates_component h = []).
  { induction calls as [|call calls IH]; intros h0 I; simpl; [exact I|].
    apply IH. now apply state_after_keeps_no_mates. }
  apply G. now repeat split.
Qed.

(** X20. No sequence of calls of the methods of the class records a mate:
    on the harness it leaves, the lists [mates_pin] and [mates_component]
    are empty and the attribute [mates] does not exist. So on such a
    harness a call of [connect] with an arrow never returns: it raises the
    exception of the endpoint loop, if any, and else [AttributeError], and
    leaves the harness as it is. *)
Theorem methods_never_record_a_mate (calls : list api_call)
    (fn : option string) (fp : pyval) (via : string) (vw : pyval)
    (tn : option string) (tp : pyval) :
  let h := harness_after get_color_hex default_color generate_bom calls in
  mates_pin h = [] /\ mates_component h = [] /\ mates h = None
  /\ (In via arrows ->
      connect fn fp via vw tn tp h
      = (h, match check_endpoints h fn fp tn tp with
            | OK _ => Raise (AttributeError "mates")
            | Raise e => Raise e
            end)).
Proof.
  intros h. destruct (harness_after_no_mates calls) as (Nm & Np & Nc).
  fold h in Nm, Np, Nc. repeat split; try assumption.
  intros A. rewrite connect_steps.
  destruct (check_endpoints h fn fp tn tp) as [[fp' tp']|e]; [|reflexivity].
  pose proof (check_via_arrow fn fp' via vw tn tp' h
                (proj2 (py_in_In via arrows) A)) as S.
  rewrite Nm in S. now rewrite S.
Qed.

End Reach.

(* ===================================================================== *)
(** * The further properties on sample harnesses *)
(* ===================================================================== *)

Lemma W1_is_no_arrow : ~ In "W1" arrows.
Proof. simpl. intros [E|[E|[E|[E|[E|[E|[]]]]]]]; discriminate E. Qed.

Lemma W3_is_no_arrow : ~ In "W3" arrows.
Proof. simpl. intros [E|[E|[E|[E|[E|[E|[]]]]]]]; discriminate E. Qed.

Lemma connect_undeclared_endpoints_recorded_as_given_witness :
  connect (Some "Z") (PyInt 1) "W1" (PyInt 7) None PyNone harness_AB
  = (set_cables
       (dict_set "W1"
          (Cable_connect (Some "Z") (PyInt 1) (PyInt 7) None PyNone
             (sample_cable "W1" ["RD"; "BK"] []))
          (cables harness_AB)) harness_AB,
     OK tt).
Proof.
  exact (connect_undeclared_endpoints_recorded_as_given harness_AB (Some "Z")
           (PyInt 1) "W1" 7 None PyNone (sample_cable "W1" ["RD"; "BK"] [])
           eq_refl eq_refl W1_is_no_arrow eq_refl eq_refl).
Defined.

(** A wire label may be a number: with the labels 2 and 1, the token 2
    names the first wire. *)
Lemma number_as_wire_label :
  option_map connections
    (dict_get "W7"
       (cables
          (fst (run (add_cable "W7"
                       (sample_cable "W7" ["RD"; "BK"] [PyInt 2; PyInt 1]) ;;
                     connect (Some "A") (PyInt 1) "W7" (PyInt 2) (Some "B") (PyInt 1))
                    harness_AB))))
  = Some [mkConnection (Some "A") (PyInt 1) (PyInt 1) (Some "B") (PyInt 1)].
Proof. reflexivity. Qed.


Lemma connect_wirelabel_names_its_wire_witness :
  exists i,
    nth_error [PyStr "sig"; PyStr "gnd"] i = Some (PyStr "gnd")
    /\ connect (Some "A") (PyInt 2) "W3" (PyStr "gnd") (Some "B") (PyInt 2)
               harness_W3
       = (recorded (Some "A") (PyInt 2) "W3" (PyInt (Z.of_nat i + 1))
                   (Some "B") (PyInt 2) cable_W3 harness_W3, OK tt).
Proof.
  exact (connect_wirelabel_names_its_wire harness_W3 (Some "A") (PyInt 2) "W3"
           (PyStr "gnd") (Some "B") (PyInt 2) cable_W3 (PyInt 2) (PyInt 2)
           W3_is_no_arrow eq_refl eq_refl (conj eq_refl eq_refl)).
Defined.

Lemma connect_wire_checks_in_order_witness :
  connect (Some "A") (PyInt 1) "W4" (PyStr "RD") (Some "B") (PyInt 1)
          (fst (run (add_cable "W4" (sample_cable "W4" ["RD"; "RD"] [])) harness_AB))
  = (fst (run (add_cable "W4" (sample_cable "W4" ["RD"; "RD"] [])) harness_AB),
     Raise (PyException (DuplicateWire "W4" (PyStr "RD")))).
Proof.
  apply (proj1 (proj2 (connect_wire_checks_in_order
                         (fst (run (add_cable "W4" (sample_cable "W4" ["RD"; "RD"] []))
                                   harness_AB))
                         (Some "A") (PyInt 1) "W4" (PyStr "RD") (Some "B") (PyInt 1)
                         (sample_cable "W4" ["RD"; "RD"] []) (PyInt 1) (PyInt 1)
                         ltac:(simpl; intros [E|[E|[E|[E|[E|[E|[]]]]]]]; discriminate E)
                         eq_refl eq_refl))).
  - left. reflexivity.
  - simpl. lia.
Defined.

Lemma connect_by_label_as_by_pin_witness :
  connect (Some "A") (PyStr "gnd") "W1" (PyInt 2) (Some "B") (PyInt 2) harness_AB
  = connect (Some "A") (PyInt 2) "W1" (PyInt 2) (Some "B") (PyInt 2) harness_AB.
Proof.
  apply (proj1 (connect_by_label_as_by_pin harness_AB (Some "A") (PyStr "gnd")
                  "W1" (PyInt 2) (Some "B") (PyInt 2) ltac:(discriminate))
           "A" (sample_connector "A" [PyInt 1; PyInt 2] [PyStr "pwr"; PyStr "gnd"])
           (PyInt 2) eq_refl eq_refl).
  - split; [reflexivity|]. split; [reflexivity|]. exists 1. split; reflexivity.
  - split; [reflexivity | left; reflexivity].
Defined.

Lemma connect_activates_resolved_pins_witness :
  exists fp' tp',
    check_endpoints harness_AB (Some "A") (PyStr "pwr") (Some "B") (PyInt 2)
    = OK (fp', tp')
    /\ (forall n c, Some "A" = Some n -> dict_get n (connectors harness_AB) = Some c ->
          exists c',
            dict_get n (connectors
                          (fst (connect (Some "A") (PyStr "pwr") "W1" (PyInt 1)
                                        (Some "B") (PyInt 2) harness_AB)))
            = Some c'
            /\ dict_get fp' (visible_pins c') = Some true)
    /\ (forall n c, Some "B" = Some n -> dict_get n (connectors harness_AB) = Some c ->
          exists c',
            dict_get n (connectors
                          (fst (connect (Some "A") (PyStr "pwr") "W1" (PyInt 1)
                                        (Some "B") (PyInt 2) harness_AB)))
            = Some c'
            /\ dict_get tp' (visible_pins c') = Some true).
Proof.
  exact (connect_activates_resolved_pins harness_AB _ (Some "A") (PyStr "pwr")
           "W1" (PyInt 1) (Some "B") (PyInt 2) eq_refl).
Defined.


Lemma connect_arrow_stores_mate_then_raises_witness :
  connect (Some "A") (PyStr "pwr") "<=>" PyNone (Some "B") (PyInt 1)
          harness_AB_mates
  = (set_mates
       (Some (dict_set (arrow_key "<=>" (Some "A") (PyInt 1) (Some "B") (PyInt 1))
                "<=>" []))
       harness_AB_mates,
     Raise (KeyError (PyStr "<=>"))).
Proof.
  exact (connect_arrow_stores_mate_then_raises harness_AB_mates (Some "A")
           (PyStr "pwr") "<=>" PyNone (Some "B") (PyInt 1) [] (PyInt 1) (PyInt 1)
           ltac:(simpl; auto 10) eq_refl eq_refl eq_refl).
Defined.

Lemma connect_records_pins_of_the_connector_witness :
  exists cable record,
    dict_get "W1" (cables harness_AB) = Some cable
    /\ dict_get "W1"
         (cables (fst (connect (Some "A") (PyStr "gnd") "W1" (PyInt 1) (Some "A")
                               (PyStr "pwr") harness_AB)))
       = Some (mkCable (cable_name cable) (colors cable) (wirelabels cable)
                 (shield cable) (connections cable ++ [record]))
    /\ from_name record = Some "A" /\ to_name record = Some "A"
    /\ (forall n c, Some "A" = Some n -> dict_get n (connectors harness_AB) = Some c ->
                    In (from_port record) (pins c))
    /\ (forall n c, Some "A" = Some n -> dict_get n (connectors harness_AB) = Some c ->
                    In (to_port record) (pins c)).
Proof.
  exact (connect_records_pins_of_the_connector harness_AB _ (Some "A")
           (PyStr "gnd") "W1" (PyInt 1) (Some "A") (PyStr "pwr") eq_refl).
Defined.

Lemma create_graph_only_sets_flags_witness :
  dict_map connector_core
    (connectors (fst (create_graph sample_color_hex "#ffffff" harness_ALB)))
  = dict_map connector_core (connectors harness_ALB).
Proof.
  exact (proj1 (proj2 (create_graph_only_sets_flags sample_color_hex "#ffffff"
                         harness_ALB _ _ eq_refl))).
Defined.

Lemma create_graph_sets_port_flags_witness :
  exists c,
    find_connector (fst (create_graph sample_color_hex "#ffffff" harness_ALB))
                   (Some "L") = OK c
    /\ ports_left c = true.
Proof.
  apply (proj2 (create_graph_sets_port_flags sample_color_hex "#ffffff"
                  harness_ALB _ _ eq_refl
                  (Cable_connect (Some "L") (PyInt 2) (PyInt 2) (Some "B") (PyInt 2)
                     (Cable_connect (Some "A") (PyInt 1) (PyInt 1) (Some "L") (PyInt 1)
                        (sample_cable "W1" ["RD"; "BK"] [])))
                  (mkConnection (Some "A") (PyInt 1) (PyInt 1) (Some "L") (PyInt 1))
                  ltac:(left; reflexivity) ltac:(left; reflexivity))).
  discriminate.
Defined.

Lemma create_graph_again_witness :
  create_graph sample_color_hex "#ffffff"
    (fst (create_graph sample_color_hex "#ffffff" harness_ALB))
  = create_graph sample_color_hex "#ffffff" harness_ALB.
Proof.
  exact (create_graph_again sample_color_hex "#ffffff" harness_ALB _ _ eq_refl).
Defined.

Lemma create_graph_undeclared_connector_KeyError_witness :
  exists h1 k,
    create_graph sample_color_hex "#ffffff" harness_Z = (h1, Raise (KeyError k)).
Proof.
  apply (create_graph_undeclared_connector_KeyError sample_color_hex "#ffffff"
           harness_Z
           (Cable_connect (Some "Z") (PyInt 1) (PyInt 1) (Some "B") (PyInt 1)
              (sample_cable "W1" ["RD"; "BK"] []))
           (mkConnection (Some "Z") (PyInt 1) (PyInt 1) (Some "B") (PyInt 1))).
  - left. reflexivity.
  - left. reflexivity.
  - left. split; [discriminate | reflexivity].
Defined.

Lemma create_graph_nodes_in_declaration_order_witness :
  node_names (match snd (create_graph sample_color_hex "#ffffff" harness_ALB) with
              | OK g => g
              | Raise _ => []
              end)
  = ["A"; "B"; "L"; "W1"].
Proof.
  exact (create_graph_nodes_in_declaration_order sample_color_hex "#ffffff"
           harness_ALB _ _ eq_refl).
Defined.

Lemma wire_rows_by_position_witness :
  nth_error (wire_rows sample_color_hex "#ffffff" false
               (sample_cable "W5" ["RD"] [PyStr "sig"; PyStr "gnd"])) 1
  = Some (wire_bar sample_color_hex "#ffffff" false 2 None).
Proof.
  apply (proj2 (wire_rows_by_position sample_color_hex "#ffffff" false
                  (sample_cable "W5" ["RD"] [PyStr "sig"; PyStr "gnd"])) 1).
  simpl. lia.
Defined.

Lemma edge_color_of_wire_number_witness :
  edge_color sample_color_hex false (sample_cable "W1" ["RD"; "BK"] []) None
             (mkConnection (Some "A") (PyInt 1) (PyInt 0) (Some "B") (PyInt 1))
  = OK "#000000:#BK:#000000".
Proof.
  apply (proj1 (proj2 (edge_color_of_wire_number sample_color_hex false
                         (sample_cable "W1" ["RD"; "BK"] []) None
                         (mkConnection (Some "A") (PyInt 1) (PyInt 0) (Some "B") (PyInt 1))
                         0 eq_refl)) "BK").
  - simpl. lia.
  - reflexivity.
Defined.

Lemma loops_drawn_on_right_side_witness :
  exists g,
    snd (create_graph sample_color_hex "#ffffff" harness_LB) = OK g
    /\ In (DotEdge "L:p1r:e" "L:p2r:e") g.
Proof.
  eexists. split; [reflexivity|].
  exact (proj1 (proj2 (loops_drawn_on_right_side sample_color_hex "#ffffff"
                         harness_LB (fst (prepare_ports harness_LB)) _
                         eq_refl
                         ltac:(right; right; left; reflexivity)
                         ltac:(discriminate) eq_refl eq_refl))
           _ _ eq_refl (PyInt 1, PyInt 2) (or_introl eq_refl)).
Defined.

Lemma create_graph_without_connections_witness :
  fst (create_graph sample_color_hex "#ffffff" harness_WS) = harness_WS
  /\ forall g,
       snd (create_graph sample_color_hex "#ffffff" harness_WS) = OK g ->
       graph_edges g = [].
Proof.
  destruct (create_graph_without_connections sample_color_hex "#ffffff"
              harness_WS _ _
              ltac:(intros cable [<- | [<- | []]]; reflexivity)
              eq_refl eq_refl)
    as (Same & No_edge).
  split; [exact Same|].
  intros g G. apply (No_edge g G).
  intros c [<- | [<- | []]]; reflexivity.
Defined.

Lemma pin_rows_show_activated_pins_witness :
  exists row,
    In row (pin_rows connector_H)
    /\ row_pin row = Some (PyInt 2)
    /\ row_port_left row = Some "p2l"
    /\ row_port_right row = None.
Proof.
  apply (proj2 (pin_rows_show_activated_pins connector_H) (PyInt 2)).
  - right. left. reflexivity.
  - right. reflexivity.
Defined.

Lemma methods_never_record_a_mate_witness :
  connect (Some "A") (PyInt 1) "<->" PyNone (Some "B") (PyInt 1)
          (harness_after sample_color_hex "#ffffff" sample_generate_bom sample_calls)
  = (harness_after sample_color_hex "#ffffff" sample_generate_bom sample_calls,
     Raise (AttributeError "mates")).
Proof.
  apply (proj2 (proj2 (proj2 (methods_never_record_a_mate sample_color_hex
                                "#ffffff" sample_generate_bom sample_calls
                                (Some "A") (PyInt 1) "<->" PyNone (Some "B")
                                (PyInt 1))))).
  right. left. reflexivity.
Defined.
